(** * Billing-state reconciliation of the AI tools blog backend

    Shallow embedding of
    - [backend/src/utils/logger.js]                        (the logger),
    - [backend/src/models/user.model.js]                   (the user documents),
    - [backend/src/config/config.js], [config/stripe.js]   (configuration and
      outbound billing client),
    - [backend/src/controllers/subscription.controller.js] (webhook endpoint,
      event handlers and the user-initiated subscription operations),
    - [trackEvent] of the analytics service,
    - [getFeaturesInLanguage] of [models/subscription.model.js],
    and the properties of the reconciliation engine that hold, or fail, on
    that code.

    Conventions.  An [async] function is a computation over the world that
    returns or throws.  A controller wrapped in [catchAsync] hands a thrown
    error to the error middleware, which is outside these sources: the
    embedding stops at the thrown error, and an [ApiError] carries the status
    code of the answer.

    A user document has the paths that the schema of [models/user.model.js]
    declares, the model that the fixtures and factories of the tests import.
    The controller also reads [user.roles], [user.stripeCustomerId] and
    [user.subscription.subscriptionId]; the schema declares [role],
    [subscription.stripeCustomerId] and [subscription.stripeSubscriptionId]
    instead, so on a document these three reads give [undefined].  (The
    other user schema among the sources declares the same two identifiers
    and [role] as well.) *)

From Stdlib Require Import String List ZArith Bool Lia.
Import ListNotations.
Local Open Scope string_scope.

(** ** JavaScript values *)

(** Errors that the modelled code throws or receives. *)
Inductive Error : Type :=
| ApiError (statusCode : nat) (message : string)
| RangeError (message : string)
| TypeError (message : string)
| StripeError (message : string)
| MongooseError (message : string).

Definition err_message (e : Error) : string :=
  match e with
  | ApiError _ m => m
  | RangeError m => m
  | TypeError m => m
  | StripeError m => m
  | MongooseError m => m
  end.

(** The completion of a call: a returned value or a thrown error. *)
Inductive Outcome (A : Type) : Type :=
| Returned (a : A)
| Thrown (e : Error).
Arguments Returned {A} a.
Arguments Thrown {A} e.

(** [!x] on a string-or-undefined value: [undefined], [null] and the empty
    string are falsy.  [truthyString] keeps the string when it is truthy. *)
Definition truthyString (x : option string) : option string :=
  match x with
  | Some s => if s =? "" then None else Some s
  | None => None
  end.

Definition includes (x : string) (l : list string) : bool :=
  existsb (String.eqb x) l.

(** [a !== b] on string-or-undefined values, negated. *)
Definition strictEq (a b : option string) : bool :=
  match a, b with
  | Some x, Some y => x =? y
  | None, None => true
  | _, _ => false
  end.

Definition OK : nat := 200.
Definition BAD_REQUEST : nat := 400.
Definition NOT_FOUND : nat := 404.

(** [new Date(ms)] for an integral [ms]: a time value beyond 8.64e15
    milliseconds on either side of the epoch is an Invalid Date.  The
    argument the controller passes is [t * 1000] for a provider time [t] in
    seconds; on numbers of that size the product is exact or invalid. *)
Inductive Date : Type :=
| ValidDate (ms : Z)
| InvalidDate.

Definition maxTime : Z := 8640000000000000.

Definition newDate (ms : Z) : Date :=
  if (Z.abs ms <=? maxTime)%Z then ValidDate ms else InvalidDate.

(** JavaScript values that the configuration and the request bodies hold. *)
#[warnings="-register-all"]
Inductive Value : Type :=
| Undefined
| Str (s : string)
| Obj (fields : list (string * Value)).

Definition ofOption (x : option string) : Value :=
  match x with
  | Some s => Str s
  | None => Undefined
  end.

(** [o.key]: [undefined] when [o] has no such property. *)
Fixpoint lookupField (key : string) (fields : list (string * Value)) : Value :=
  match fields with
  | [] => Undefined
  | (k, v) :: rest => if k =? key then v else lookupField key rest
  end.

Definition getProperty (key : string) (o : Value) : Value :=
  match o with
  | Obj fields => lookupField key fields
  | _ => Undefined
  end.

(** [a === b] on strings and [undefined] (objects are never compared). *)
Definition valueEq (a b : Value) : bool :=
  match a, b with
  | Undefined, Undefined => true
  | Str x, Str y => x =? y
  | _, _ => false
  end.

(** ** models/user.model.js: documents of the state store *)

(** [subscriptionSchema] (lines 8-36).  A path that a document may leave
    [undefined] or [null] is an [option]. *)
Record Subscription : Type := {
  planId : option string;
  status : option string;
  stripeCustomerId : option string;
  stripeSubscriptionId : option string;
  currentPeriodStart : option Date;
  currentPeriodEnd : option Date;
  cancelAtPeriodEnd : bool
}.

(** [userSchema] (lines 58-159), with the identifier and the paths that
    concern the subscription; [role] is a single string. *)
Record User : Type := {
  userId : string;
  role : string;
  subscription : option Subscription
}.

(** The defaults of [subscriptionSchema]: what [subscription] is on a
    document created without one ([default: () => ({})]). *)
Definition defaultSubscription : Subscription :=
  {| planId := Some "free"; status := Some "active";
     stripeCustomerId := None; stripeSubscriptionId := None;
     currentPeriodStart := None; currentPeriodEnd := None;
     cancelAtPeriodEnd := false |}.

(** *** Paths that the controller reads and the schema does not declare

    [user.roles]: the schema declares [role].  *)
Definition roles (u : User) : option (list string) := None.

(** [user.stripeCustomerId]: the schema declares
    [subscription.stripeCustomerId]. *)
Definition user_stripeCustomerId (u : User) : option string := None.

(** [user.subscription.subscriptionId]: the schema declares
    [subscription.stripeSubscriptionId]. *)
Definition subscriptionId (s : Subscription) : option string := None.

(** *** Assignments to declared paths *)

Definition set_subscription (u : User) (s : option Subscription) : User :=
  {| userId := userId u; role := role u; subscription := s |}.

Definition set_status (s : Subscription) (st : option string) : Subscription :=
  {| planId := planId s; status := st;
     stripeCustomerId := stripeCustomerId s;
     stripeSubscriptionId := stripeSubscriptionId s;
     currentPeriodStart := currentPeriodStart s;
     currentPeriodEnd := currentPeriodEnd s;
     cancelAtPeriodEnd := cancelAtPeriodEnd s |}.

Definition set_cancelAtPeriodEnd (s : Subscription) (b : bool) : Subscription :=
  {| planId := planId s; status := status s;
     stripeCustomerId := stripeCustomerId s;
     stripeSubscriptionId := stripeSubscriptionId s;
     currentPeriodStart := currentPeriodStart s;
     currentPeriodEnd := currentPeriodEnd s;
     cancelAtPeriodEnd := b |}.

Definition set_planId (s : Subscription) (p : option string) : Subscription :=
  {| planId := p; status := status s;
     stripeCustomerId := stripeCustomerId s;
     stripeSubscriptionId := stripeSubscriptionId s;
     currentPeriodStart := currentPeriodStart s;
     currentPeriodEnd := currentPeriodEnd s;
     cancelAtPeriodEnd := cancelAtPeriodEnd s |}.

Definition set_currentPeriodEnd (s : Subscription) (d : option Date)
  : Subscription :=
  {| planId := planId s; status := status s;
     stripeCustomerId := stripeCustomerId s;
     stripeSubscriptionId := stripeSubscriptionId s;
     currentPeriodStart := currentPeriodStart s;
     currentPeriodEnd := d;
     cancelAtPeriodEnd := cancelAtPeriodEnd s |}.

(** [user.subscription = { subscriptionId, planId, status, currentPeriodEnd,
    cancelAtPeriodEnd }]: the object is cast to [subscriptionSchema], which
    drops [subscriptionId] and gives the paths that the object leaves out
    their defaults. *)
Definition castSubscription (plan st : option string) (periodEnd : option Date)
  (cancel : bool) : Subscription :=
  {| planId := plan; status := st;
     stripeCustomerId := None; stripeSubscriptionId := None;
     currentPeriodStart := None; currentPeriodEnd := periodEnd;
     cancelAtPeriodEnd := cancel |}.

(** ** Objects of the billing provider *)

Record SubscriptionItem : Type := {
  item_id : string;
  price_id : string
}.

(** A provider subscription: [id], [customer], [status],
    [current_period_end] (seconds), [cancel_at_period_end], [items.data]. *)
Record StripeSubscription : Type := {
  sub_id : string;
  sub_customer : option string;
  sub_status : string;
  sub_current_period_end : Z;
  sub_cancel_at_period_end : bool;
  sub_items_data : list SubscriptionItem
}.

Record CheckoutSession : Type := {
  session_id : string;
  session_subscription : option string;
  session_customer : option string
}.

Record Invoice : Type := {
  invoice_id : string;
  invoice_subscription : option string;
  invoice_customer : option string
}.

(** [event.data.object]: which kind of object an event carries is not
    checked by the code, so every handler accepts every kind. *)
Inductive EventObject : Type :=
| ObjSession (s : CheckoutSession)
| ObjSubscription (s : StripeSubscription)
| ObjInvoice (i : Invoice).

(** A decoded webhook event; [created] is the provider-reported event time. *)
Record StripeEvent : Type := {
  event_id : string;
  event_type : string;
  created : Z;
  data_object : EventObject
}.

(** Property reads on [event.data.object]. *)
Definition obj_id (o : EventObject) : string :=
  match o with
  | ObjSession s => session_id s
  | ObjSubscription s => sub_id s
  | ObjInvoice i => invoice_id i
  end.

Definition obj_subscription (o : EventObject) : option string :=
  match o with
  | ObjSession s => session_subscription s
  | ObjSubscription _ => None
  | ObjInvoice i => invoice_subscription i
  end.

Definition obj_customer (o : EventObject) : option string :=
  match o with
  | ObjSession s => session_customer s
  | ObjSubscription s => sub_customer s
  | ObjInvoice i => invoice_customer i
  end.

(** ** The world: state store, analytics collection, provider requests *)

Record AnalyticsEvent : Type := {
  event : string;
  data_userId : string
}.

(** Parameters of [stripe.subscriptions.update]. *)
Record UpdateParams : Type := {
  cancel_at_period_end : option bool;
  items : option (string * string)
}.

(** Requests sent to the provider, in the order they were sent. *)
Inductive StripeCall : Type :=
| SubscriptionsRetrieve (id : string)
| SubscriptionsUpdate (id : string) (params : UpdateParams)
| SubscriptionsCancel (id : string).

Record World : Type := {
  users : list User;
  analytics : list AnalyticsEvent;
  stripeCalls : list StripeCall
}.

Definition set_users (w : World) (l : list User) : World :=
  {| users := l; analytics := analytics w; stripeCalls := stripeCalls w |}.

(** ** Computations: state passing with thrown errors

    A thrown error keeps the effects made before it. *)
Definition M (A : Type) : Type := World -> Outcome A * World.

Definition ret {A} (a : A) : M A := fun w => (Returned a, w).

Definition throw {A} (e : Error) : M A := fun w => (Thrown e, w).

Definition bind {A B} (m : M A) (k : A -> M B) : M B :=
  fun w =>
    match m w with
    | (Returned a, w') => k a w'
    | (Thrown e, w') => (Thrown e, w')
    end.

Definition tryCatch {A} (m : M A) (handler : Error -> M A) : M A :=
  fun w =>
    match m w with
    | (Returned a, w') => (Returned a, w')
    | (Thrown e, w') => handler e w'
    end.

Definition liftOutcome {A} (o : Outcome A) : M A := fun w => (o, w).

Notation "x <- c1 ;; c2" := (bind c1 (fun x => c2))
  (at level 61, c1 at next level, right associativity).
Notation "c1 ;; c2" := (bind c1 (fun _ => c2))
  (at level 61, right associativity).

Definition exec {A} (m : M A) (w : World) : World := snd (m w).
Definition outcome {A} (m : M A) (w : World) : Outcome A := fst (m w).

(** ** utils/logger

    The arguments of a call of a logger method: message texts, a caught
    error, an identifier that may be [undefined]. *)
Inductive LogArg : Type :=
| LogText (s : string)
| LogError (e : Error)
| LogId (x : option string).

(** A logger is the completion of a call of its [error] method; logging does
    not touch the world. *)
Record Logger : Type := {
  error : list LogArg -> Outcome unit
}.

Definition stackOverflow : Error :=
  RangeError "Maximum call stack size exceeded".

(** [error: (...args) => { logger.error(...args); }]: the method calls
    itself.  Each call takes a frame of the call stack; when no frame is
    left the engine throws [RangeError]. *)
Fixpoint logger_error (frames : nat) (args : list LogArg) : Outcome unit :=
  match frames with
  | O => Thrown stackOverflow
  | S frames' => logger_error frames' args
  end.

(** [warn: (...args) => { logger.warn(...args); }]: as [error], the method
    calls itself. *)
Fixpoint logger_warn (frames : nat) (args : list LogArg) : Outcome unit :=
  match frames with
  | O => Thrown stackOverflow
  | S frames' => logger_warn frames' args
  end.

(** The logger of the repository, on a call stack of [frames] frames. *)
Definition utils_logger (frames : nat) : Logger :=
  {| error := logger_error frames |}.

(** ** Collaborators outside the sources *)

(** The Stripe SDK client, Mongoose's [save] and the analytics collection,
    as they answer during one operation: an answer is a function of the
    request.  Each operation of a sequence runs in an environment of its own,
    so an answer may change from one operation to the next. *)
Record Env : Type := {
  webhookSecret : string;
  (** [stripe.webhooks.constructEvent(payload, header, secret)] *)
  webhooks_constructEvent : string -> string -> string -> Outcome StripeEvent;
  subscriptions_retrieve : string -> Outcome StripeSubscription;
  subscriptions_update : string -> UpdateParams -> Outcome StripeSubscription;
  subscriptions_cancel : string -> Outcome StripeSubscription;
  (** [user.save()] rejects with this error (validation against the schema,
      or the write itself), or resolves when [None] *)
  save_rejects : User -> option Error;
  (** [analytics.save()] rejects *)
  analytics_rejects : AnalyticsEvent -> bool
}.

(** The varying parameters of [stripe.checkout.sessions.create]; the others
    are constants ([mode: 'subscription'], [quantity: 1], ...). *)
Record CheckoutParams : Type := {
  checkout_customer : Value;
  checkout_price : Value;
  checkout_success_url : Value;
  checkout_cancel_url : Value
}.

Record CheckoutAnswer : Type := {
  checkout_id : string;
  checkout_url : string
}.

(** The SDK calls of checkout, portal and discount. *)
Record Sdk : Type := {
  (** [stripe.customers.create], answering the identifier of the customer *)
  customers_create : string -> Outcome string;
  (** [stripe.customers.update(customerId, {coupon})] *)
  customers_update : string -> string -> Outcome unit;
  checkout_sessions_create : CheckoutParams -> Outcome CheckoutAnswer;
  (** [stripe.billingPortal.sessions.create({customer, return_url})],
      answering the URL of the session *)
  billingPortal_sessions_create : string -> string -> Outcome string
}.

(** A filter of [User.findOne] with one condition, [{ path: value }]. *)
Record Filter : Type := {
  path : string;
  value : option string
}.

(** Both filters of the controller name a path that the schema does not
    declare ([stripeCustomerId] and [subscription.subscriptionId]).  Which
    documents such a filter selects is decided by Mongoose and the database,
    not by these sources: with [strictQuery] the condition is dropped and
    every document qualifies; without it the condition is evaluated on the
    stored documents as they are.  [selects filter id] tells whether the
    filter selects the document with the identifier [id]; the program writes
    declared paths only, so the answer does not change while it runs. *)
Record Mongoose : Type := {
  selects : Filter -> string -> bool
}.

(** [{ stripeCustomerId: customerId }] *)
Definition byStripeCustomerId (customerId : option string) : Filter :=
  {| path := "stripeCustomerId"; value := customerId |}.

(** [{ 'subscription.subscriptionId': id }] *)
Definition bySubscriptionId (id : string) : Filter :=
  {| path := "subscription.subscriptionId"; value := Some id |}.

(** ** config/config.js: what the controller reads *)

(** The environment variables of the payment section, after validation:
    each is an optional string; [FRONTEND_URL] has a default. *)
Record EnvVars : Type := {
  FRONTEND_URL : string;
  STRIPE_SECRET_KEY : option string;
  STRIPE_WEBHOOK_SECRET : option string;
  PRICING_BASIC_PLAN_ID : option string;
  PRICING_PRO_PLAN_ID : option string;
  PRICING_ENTERPRISE_PLAN_ID : option string
}.

(** [config.stripe] as [module.exports] builds it. *)
Definition config_stripe (envVars : EnvVars) : Value :=
  Obj [ ("secretKey", ofOption (STRIPE_SECRET_KEY envVars));
        ("webhookSecret", ofOption (STRIPE_WEBHOOK_SECRET envVars));
        ("plans",
         Obj [ ("basic", ofOption (PRICING_BASIC_PLAN_ID envVars));
               ("pro", ofOption (PRICING_PRO_PLAN_ID envVars));
               ("enterprise",
                ofOption (PRICING_ENTERPRISE_PLAN_ID envVars)) ]) ].

Definition config_frontendUrl (envVars : EnvVars) : string :=
  FRONTEND_URL envVars.

(** ** Requests and responses *)

Record SubscriptionView : Type := {
  view_planId : option string;
  view_status : option string;
  view_currentPeriodEnd : option Date;
  view_cancelAtPeriodEnd : bool
}.

Inductive Json : Type :=
| SubscriptionInfo (subscriptionView : option SubscriptionView)
    (hasActiveSubscription : bool)
| CancelResult (message : string) (status : option string)
    (cancelAtPeriodEnd : bool)
| Received (received : bool)
| ReactivateResult (message : string) (status : option string)
    (cancelAtPeriodEnd : bool)
| UpdateResult (message : string) (planId : string) (status : string)
    (current_period_end : Date).

Record Response : Type := {
  statusCode : nat;
  json : Json
}.

(** A webhook delivery: the [stripe-signature] header and the raw body. *)
Record WebhookRequest : Type := {
  stripe_signature : option string;
  body : string
}.

(** A plan of [getSubscriptionPlans]; the price is written in cents. *)
Record PlanOffer : Type := {
  offer_id : Value;
  offer_name : string;
  offer_description : string;
  offer_price_cents : Z;
  offer_currency : string;
  offer_interval : string;
  offer_features : list string
}.

Record CheckoutBody : Type := {
  body_planId : option string;
  body_successUrl : option string;
  body_cancelUrl : option string
}.

(** Answers of plans, checkout, portal and discount. *)
Inductive Reply : Type :=
| PlansReply (plans : list PlanOffer)
| CheckoutReply (sessionId url : string)
| PortalReply (url : string)
| DiscountReply (message : string).

(** * The program *)

Section Program.

Context (logger : Logger) (mongoose : Mongoose) (env : Env)
  (envVars : EnvVars) (sdk : Sdk).

Definition logger_error_call (args : list LogArg) : M unit :=
  liftOutcome (error logger args).

(** ** Mongoose model [User] *)

Definition byId (uid : string) (u : User) : bool := userId u =? uid.

Definition findById (uid : string) : M (option User) :=
  fun w => (Returned (find (byId uid) (users w)), w).

(** The documents that a filter on an undeclared path selects. *)
Definition selected (filter : Filter) (u : User) : bool :=
  selects mongoose filter (userId u).

Definition findOne (filter : Filter) : M (option User) :=
  fun w => (Returned (find (selected filter) (users w)), w).

(** The stored document with the identifier of [u] becomes [u]. *)
Definition replaceUser (u : User) (l : list User) : list User :=
  map (fun x => if userId x =? userId u then u else x) l.

(** [user.save()].  The [pre('save')] hook of the schema touches
    [password], [affiliateCode] and [lastLogin] only, which are no part of
    the modelled document. *)
Definition save (u : User) : M unit :=
  fun w =>
    match save_rejects env u with
    | Some e => (Thrown e, w)
    | None => (Returned tt, set_users w (replaceUser u (users w)))
    end.

(** ** analyticsService.trackEvent

    A failed [analytics.save()] is caught inside [trackEvent], which
    returns in both cases. *)
Definition trackEvent (name : string) (uid : string) : M unit :=
  fun w =>
    let a := {| event := name; data_userId := uid |} in
    if analytics_rejects env a then (Returned tt, w)
    else (Returned tt,
          {| users := users w; analytics := analytics w ++ [a];
             stripeCalls := stripeCalls w |}).

(** ** config/stripe.js *)

(** A request of the SDK client: it is recorded, and completes as the
    provider decides. *)
Definition stripeRequest {A} (c : StripeCall) (answer : Outcome A) : M A :=
  fun w =>
    (answer,
     {| users := users w; analytics := analytics w;
        stripeCalls := stripeCalls w ++ [c] |}).

(** The keys of [module.exports] of config/stripe.js. *)
Definition moduleExports : list string :=
  [ "stripe"; "createCheckoutSession"; "getSubscription"; "getCustomer";
    "updateSubscription"; "cancelSubscription"; "reactivateSubscription";
    "createCustomerPortalSession"; "constructEventFromPayload";
    "createUsageRecord"; "getUpcomingInvoice"; "getPaymentMethods";
    "applyDiscount"; "getInvoices"; "constructEventFromWebhook" ].

Definition exported (name : string) : bool := includes name moduleExports.

Definition stripe_getSubscription (subId : string)
  : M StripeSubscription :=
  tryCatch
    (stripeRequest (SubscriptionsRetrieve subId)
       (subscriptions_retrieve env subId))
    (fun error =>
       logger_error_call
         [LogText "Error retrieving Stripe subscription:"; LogError error] ;;
       throw error).

Definition stripe_updateSubscription (subId newPriceId : string)
  : M StripeSubscription :=
  tryCatch
    (current <- stripeRequest (SubscriptionsRetrieve subId)
                  (subscriptions_retrieve env subId) ;;
     match sub_items_data current with
     | [] => throw (TypeError "Cannot read properties of undefined (reading 'id')")
     | item :: _ =>
         let params := {| cancel_at_period_end := None;
                          items := Some (item_id item, newPriceId) |} in
         stripeRequest (SubscriptionsUpdate subId params)
           (subscriptions_update env subId params)
     end)
    (fun error =>
       logger_error_call
         [LogText "Error updating Stripe subscription:"; LogError error] ;;
       throw error).

Definition stripe_cancelSubscription (subId : string)
  (atPeriodEnd : bool) : M StripeSubscription :=
  tryCatch
    (if atPeriodEnd then
       let params := {| cancel_at_period_end := Some true; items := None |} in
       stripeRequest (SubscriptionsUpdate subId params)
         (subscriptions_update env subId params)
     else
       stripeRequest (SubscriptionsCancel subId)
         (subscriptions_cancel env subId))
    (fun error =>
       logger_error_call
         [LogText "Error canceling Stripe subscription:"; LogError error] ;;
       throw error).

Definition stripe_reactivateSubscription (subId : string)
  : M StripeSubscription :=
  tryCatch
    (let params := {| cancel_at_period_end := Some false; items := None |} in
     stripeRequest (SubscriptionsUpdate subId params)
       (subscriptions_update env subId params))
    (fun error =>
       logger_error_call
         [LogText "Error reactivating Stripe subscription:"; LogError error] ;;
       throw error).

Definition stripe_constructEventFromPayload (payload signature : string)
  : M StripeEvent :=
  tryCatch
    (liftOutcome
       (webhooks_constructEvent env payload signature (webhookSecret env)))
    (fun error =>
       logger_error_call
         [LogText "Error verifying webhook signature:"; LogError error] ;;
       throw error).

(** [createCheckoutSession(customerId, priceId, successUrl, cancelUrl)]. *)
Definition stripe_createCheckoutSession
  (customerId priceId successUrl cancelUrl : Value) : M CheckoutAnswer :=
  tryCatch
    (liftOutcome
       (checkout_sessions_create sdk
          {| checkout_customer := customerId;
             checkout_price := priceId;
             checkout_success_url := successUrl;
             checkout_cancel_url := cancelUrl |}))
    (fun error =>
       logger_error_call
         [LogText "Error creating checkout session:"; LogError error] ;;
       throw error).

(** [createCustomerPortalSession(customerId, returnUrl)]. *)
Definition stripe_createCustomerPortalSession (customerId returnUrl : string)
  : M string :=
  tryCatch
    (liftOutcome (billingPortal_sessions_create sdk customerId returnUrl))
    (fun error =>
       logger_error_call
         [LogText "Error creating customer portal session:"; LogError error] ;;
       throw error).

(** ** controllers/subscription.controller.js: webhook handlers *)

(** [handleCheckoutSessionCompleted] (lines 297-344). *)
Definition handleCheckoutSessionCompleted (session : EventObject) : M unit :=
  let customerId := obj_customer session in
  match truthyString (obj_subscription session) with
  | None =>
      logger_error_call
        [LogText "No subscription ID found in checkout session"]
  | Some sid =>
      tryCatch
        (details <- stripe_getSubscription sid ;;
         user <- findOne (byStripeCustomerId customerId) ;;
         match user with
         | None =>
             logger_error_call
               [LogText "No user found with Stripe customer ID:";
                LogId customerId]
         | Some user =>
             match sub_items_data details with
             | [] =>
                 throw (TypeError
                   "Cannot read properties of undefined (reading 'price')")
             | item :: _ =>
                 let user' :=
                   set_subscription user
                     (Some (castSubscription
                              (Some (price_id item))
                              (Some (sub_status details))
                              (Some (newDate
                                       (sub_current_period_end details * 1000)))
                              (sub_cancel_at_period_end details))) in
                 (* [if (!user.roles.includes('premium'))
                       user.roles.push('premium')] *)
                 match roles user' with
                 | None =>
                     throw (TypeError
                       "Cannot read properties of undefined (reading 'includes')")
                 | Some _ =>
                     save user' ;;
                     trackEvent "subscription_created" (userId user')
                 end
             end
         end)
        (fun error =>
           logger_error_call
             [LogText "Error handling checkout session completion:";
              LogError error])
  end.

(** The in-memory update of [handleSubscriptionUpdated] (lines 359-366):
    status, period end and cancellation flag are assigned, the plan when it
    differs. *)
Definition applySubscriptionUpdate (s : StripeSubscription)
  (item : SubscriptionItem) (user : User) (sb : Subscription) : User :=
  let sb1 := set_status sb (Some (sub_status s)) in
  let sb2 := set_currentPeriodEnd sb1
               (Some (newDate (sub_current_period_end s * 1000))) in
  let sb3 := set_cancelAtPeriodEnd sb2 (sub_cancel_at_period_end s) in
  let sb4 := if strictEq (Some (price_id item)) (planId sb3) then sb3
             else set_planId sb3 (Some (price_id item)) in
  set_subscription user (Some sb4).

(** The role handling of [handleSubscriptionUpdated] (lines 368-377): for
    the status active and for the statuses canceled, unpaid and past_due the
    handler calls a method of [user.roles]; an assignment to [user.roles]
    would not reach the stored document. *)
Definition updateRoles (st : string) (user : User) : M unit :=
  if st =? "active" then
    match roles user with
    | None =>
        throw (TypeError
          "Cannot read properties of undefined (reading 'includes')")
    | Some _ => ret tt
    end
  else if includes st ["canceled"; "unpaid"; "past_due"] then
    match roles user with
    | None =>
        throw (TypeError
          "Cannot read properties of undefined (reading 'filter')")
    | Some _ => ret tt
    end
  else ret tt.

(** [handleSubscriptionUpdated] (lines 350-392). *)
Definition handleSubscriptionUpdated (subscriptionObj : EventObject) : M unit :=
  tryCatch
    (user <- findOne (bySubscriptionId (obj_id subscriptionObj)) ;;
     match user with
     | None => ret tt
     | Some user =>
         match subscription user with
         | None =>
             throw (TypeError
               "Cannot set properties of undefined (setting 'status')")
         | Some sb =>
             match subscriptionObj with
             | ObjSubscription s =>
                 match sub_items_data s with
                 | [] =>
                     throw (TypeError
                       "Cannot read properties of undefined (reading 'price')")
                 | item :: _ =>
                     let user' := applySubscriptionUpdate s item user sb in
                     updateRoles (sub_status s) user' ;;
                     save user' ;;
                     trackEvent "subscription_updated" (userId user')
                 end
             | _ =>
                 (* a session or an invoice has no [items] *)
                 throw (TypeError
                   "Cannot read properties of undefined (reading 'data')")
             end
         end
     end)
    (fun error =>
       logger_error_call
         [LogText "Error handling subscription update:"; LogError error]).

(** [handleSubscriptionDeleted] (lines 398-423). *)
Definition handleSubscriptionDeleted (subscriptionObj : EventObject) : M unit :=
  tryCatch
    (user <- findOne (bySubscriptionId (obj_id subscriptionObj)) ;;
     match user with
     | None =>
         logger_error_call
           [LogText "No user found with subscription ID:";
            LogId (Some (obj_id subscriptionObj))]
     | Some user =>
         match subscription user with
         | None =>
             throw (TypeError
               "Cannot set properties of undefined (setting 'status')")
         | Some sb =>
             let user' :=
               set_subscription user (Some (set_status sb (Some "canceled"))) in
             (* [user.roles = user.roles.filter(...)] *)
             match roles user' with
             | None =>
                 throw (TypeError
                   "Cannot read properties of undefined (reading 'filter')")
             | Some _ =>
                 save user' ;;
                 trackEvent "subscription_deleted" (userId user')
             end
         end
     end)
    (fun error =>
       logger_error_call
         [LogText "Error handling subscription deletion:"; LogError error]).

(** [handleInvoicePaymentSucceeded] (lines 429-452). *)
Definition handleInvoicePaymentSucceeded (invoice : EventObject) : M unit :=
  match truthyString (obj_subscription invoice) with
  | None => ret tt
  | Some sid =>
      tryCatch
        (user <- findOne (bySubscriptionId sid) ;;
         match user with
         | None =>
             logger_error_call
               [LogText "No user found with subscription ID:";
                LogId (Some sid)]
         | Some user =>
             trackEvent "subscription_payment_succeeded" (userId user)
         end)
        (fun error =>
           logger_error_call
             [LogText "Error handling invoice payment success:";
              LogError error])
  end.

(** [handleInvoicePaymentFailed] (lines 458-482). *)
Definition handleInvoicePaymentFailed (invoice : EventObject) : M unit :=
  match truthyString (obj_subscription invoice) with
  | None => ret tt
  | Some sid =>
      tryCatch
        (user <- findOne (bySubscriptionId sid) ;;
         match user with
         | None =>
             logger_error_call
               [LogText "No user found with subscription ID:";
                LogId (Some sid)]
         | Some user =>
             trackEvent "subscription_payment_failed" (userId user)
         end)
        (fun error =>
           logger_error_call
             [LogText "Error handling invoice payment failure:";
              LogError error])
  end.

(** The [switch (event.type)] of [handleStripeWebhook]. *)
Definition dispatchEvent (e : StripeEvent) : M unit :=
  let type := event_type e in
  if type =? "checkout.session.completed" then
    handleCheckoutSessionCompleted (data_object e)
  else if (type =? "customer.subscription.created")
          || (type =? "customer.subscription.updated") then
    handleSubscriptionUpdated (data_object e)
  else if type =? "customer.subscription.deleted" then
    handleSubscriptionDeleted (data_object e)
  else if type =? "invoice.payment_succeeded" then
    handleInvoicePaymentSucceeded (data_object e)
  else if type =? "invoice.payment_failed" then
    handleInvoicePaymentFailed (data_object e)
  else
    logger_error_call [LogText ("Unhandled event type: " ++ type)].

(** [handleStripeWebhook] (lines 223-265).  The controller passes the
    header where [constructEventFromPayload] expects the payload, and the
    body where it expects the header. *)
Definition handleStripeWebhook (req : WebhookRequest) : M Response :=
  match truthyString (stripe_signature req) with
  | None => throw (ApiError BAD_REQUEST "Missing Stripe signature")
  | Some signature =>
      tryCatch
        (e <- stripe_constructEventFromPayload signature (body req) ;;
         dispatchEvent e ;;
         ret {| statusCode := OK; json := Received true |})
        (fun err =>
           logger_error_call
             [LogText ("Webhook error: " ++ err_message err)] ;;
           throw (ApiError BAD_REQUEST ("Webhook error: " ++ err_message err)))
  end.

(** ** controllers/subscription.controller.js: user operations *)

(** [getUserSubscription] (lines 128-168). *)
Definition getUserSubscription (uid : string) : M Response :=
  user <- findById uid ;;
  match user with
  | None => throw (ApiError NOT_FOUND "User not found")
  | Some user =>
      early <-
        match truthyString (user_stripeCustomerId user), subscription user with
        | Some _, Some sb =>
            match truthyString (subscriptionId sb) with
            | Some sid =>
                tryCatch
                  (subscriptionDetails <- stripe_getSubscription sid ;;
                   sb' <-
                     (if strictEq (Some (sub_status subscriptionDetails))
                           (status sb)
                      then ret sb
                      else
                        let sb1 :=
                          set_status sb (Some (sub_status subscriptionDetails)) in
                        save (set_subscription user (Some sb1)) ;;
                        ret sb1) ;;
                   ret (Some
                     {| statusCode := OK;
                        json :=
                          SubscriptionInfo
                            (Some
                               {| view_planId := planId sb';
                                  view_status := status sb';
                                  view_currentPeriodEnd := currentPeriodEnd sb';
                                  view_cancelAtPeriodEnd :=
                                    sub_cancel_at_period_end
                                      subscriptionDetails |})
                            (strictEq (status sb') (Some "active")) |}))
                  (fun error =>
                     logger_error_call
                       [LogText "Error fetching subscription from Stripe:";
                        LogError error] ;;
                     ret None)
            | None => ret None
            end
        | _, _ => ret None
        end ;;
      match early with
      | Some response => ret response
      | None =>
          ret {| statusCode := OK; json := SubscriptionInfo None false |}
      end
  end.

(** [cancelSubscription] (lines 175-216). *)
Definition cancelSubscription (uid : string) (cancelImmediately : bool)
  : M Response :=
  user <- findById uid ;;
  match user with
  | None => throw (ApiError NOT_FOUND "User not found")
  | Some user =>
      match subscription user with
      | None => throw (ApiError BAD_REQUEST "No active subscription found")
      | Some sb =>
          match truthyString (subscriptionId sb) with
          | None => throw (ApiError BAD_REQUEST "No active subscription found")
          | Some sid =>
              stripe_cancelSubscription sid (negb cancelImmediately) ;;
              let sb1 :=
                set_status sb
                  (Some (if cancelImmediately then "canceled" else "active")) in
              let sb2 := set_cancelAtPeriodEnd sb1 (negb cancelImmediately) in
              save (set_subscription user (Some sb2)) ;;
              trackEvent "subscription_canceled" uid ;;
              ret {| statusCode := OK;
                     json :=
                       CancelResult
                         (if cancelImmediately
                          then "Subscription canceled immediately"
                          else "Subscription will be canceled at the end of the billing period")
                         (status sb2) (cancelAtPeriodEnd sb2) |}
          end
      end
  end.

(** [reactivateSubscription] (lines 489-528). *)
Definition reactivateSubscription (uid : string) : M Response :=
  user <- findById uid ;;
  match user with
  | None => throw (ApiError NOT_FOUND "User not found")
  | Some user =>
      match subscription user with
      | None => throw (ApiError BAD_REQUEST "No subscription found to reactivate")
      | Some sb =>
          match truthyString (subscriptionId sb) with
          | None =>
              throw (ApiError BAD_REQUEST "No subscription found to reactivate")
          | Some sid =>
              if negb (cancelAtPeriodEnd sb) then
                throw (ApiError BAD_REQUEST
                         "Subscription is not scheduled for cancellation")
              else
                (* [stripe.subscriptions.update(id, {})], where [stripe] is
                   the module config/stripe.js *)
                (if exported "subscriptions" then
                   let params := {| cancel_at_period_end := None;
                                    items := None |} in
                   stripeRequest (SubscriptionsUpdate sid params)
                     (subscriptions_update env sid params)
                 else
                   throw (TypeError
                     "Cannot read properties of undefined (reading 'update')")) ;;
                let sb1 := set_cancelAtPeriodEnd sb false in
                save (set_subscription user (Some sb1)) ;;
                trackEvent "subscription_reactivated" uid ;;
                ret {| statusCode := OK;
                       json :=
                         ReactivateResult
                           "Subscription successfully reactivated"
                           (status sb1) false |}
          end
      end
  end.

(** [config.stripe.monthlyPlanId] and [config.stripe.yearlyPlanId]. *)
Definition config_monthlyPlanId : Value :=
  getProperty "monthlyPlanId" (config_stripe envVars).

Definition config_yearlyPlanId : Value :=
  getProperty "yearlyPlanId" (config_stripe envVars).

(** [planId !== config.stripe.monthlyPlanId &&
     planId !== config.stripe.yearlyPlanId] *)
Definition invalidPlan (plan : Value) : bool :=
  negb (valueEq plan config_monthlyPlanId)
  && negb (valueEq plan config_yearlyPlanId).

(** [updateSubscription] (lines 682-736). *)
Definition updateSubscription (uid : string) (newPlanId : option string)
  : M Response :=
  match truthyString newPlanId with
  | None => throw (ApiError BAD_REQUEST "New plan ID is required")
  | Some newPlan =>
      if invalidPlan (Str newPlan)
      then throw (ApiError BAD_REQUEST "Invalid plan selected")
      else
        user <- findById uid ;;
        match user with
        | None => throw (ApiError NOT_FOUND "User not found")
        | Some user =>
            match subscription user with
            | None =>
                throw (ApiError BAD_REQUEST "No active subscription found")
            | Some sb =>
                match truthyString (subscriptionId sb) with
                | None =>
                    throw (ApiError BAD_REQUEST "No active subscription found")
                | Some sid =>
                    if strictEq (planId sb) (Some newPlan) then
                      throw (ApiError BAD_REQUEST
                               "Already subscribed to this plan")
                    else
                      updatedSubscription <-
                        stripe_updateSubscription sid newPlan ;;
                      save (set_subscription user
                              (Some (set_planId sb (Some newPlan)))) ;;
                      trackEvent "subscription_plan_changed" uid ;;
                      ret {| statusCode := OK;
                             json :=
                               UpdateResult
                                 "Subscription plan updated successfully"
                                 newPlan (sub_status updatedSubscription)
                                 (newDate
                                    (sub_current_period_end updatedSubscription
                                     * 1000)) |}
                end
            end
        end
  end.

(** ** controllers/subscription.controller.js: plans, checkout, portal,
    discount *)

(** [getSubscriptionPlans]: the answer is always 200 with this list. *)
Definition getSubscriptionPlans : list PlanOffer :=
  [ {| offer_id := config_monthlyPlanId;
       offer_name := "Monthly Premium";
       offer_description := "Unlimited access to all premium content";
       offer_price_cents := 999;
       offer_currency := "USD";
       offer_interval := "month";
       offer_features :=
         [ "Full access to premium articles"; "Early access to new content";
           "Ad-free reading experience"; "Monthly newsletter" ] |};
    {| offer_id := config_yearlyPlanId;
       offer_name := "Annual Premium";
       offer_description := "Save 20% with annual billing";
       offer_price_cents := 9588;
       offer_currency := "USD";
       offer_interval := "year";
       offer_features :=
         [ "Full access to premium articles"; "Early access to new content";
           "Ad-free reading experience"; "Monthly newsletter";
           "Exclusive webinars"; "24/7 Priority support" ] |} ].

(** [x || fallback] on an optional string. *)
Definition orDefault (x : option string) (fallback : string) : string :=
  match truthyString x with
  | Some s => s
  | None => fallback
  end.

(** The single argument that the controller passes to
    [stripe.createCheckoutSession]. *)
Definition checkoutArgument (customerId : string) (body : CheckoutBody)
  : Value :=
  Obj [ ("customerId", Str customerId);
        ("priceId", ofOption (body_planId body));
        ("successUrl",
         Str (orDefault (body_successUrl body)
                (config_frontendUrl envVars
                 ++ "/subscription/success?session_id={CHECKOUT_SESSION_ID}")));
        ("cancelUrl",
         Str (orDefault (body_cancelUrl body)
                (config_frontendUrl envVars ++ "/subscription/cancel"))) ].

(** [createCheckoutSession] (lines 61-121). *)
Definition createCheckoutSession (uid : string) (body : CheckoutBody)
  : M (nat * Reply) :=
  if invalidPlan (ofOption (body_planId body)) then
    throw (ApiError BAD_REQUEST "Invalid plan selected")
  else
    user <- findById uid ;;
    match user with
    | None => throw (ApiError NOT_FOUND "User not found")
    | Some user =>
        if match subscription user with
           | Some sb => strictEq (status sb) (Some "active")
           | None => false
           end
        then throw (ApiError BAD_REQUEST
                      "You already have an active subscription")
        else
          customerId <-
            match truthyString (user_stripeCustomerId user) with
            | Some customerId => ret customerId
            | None =>
                (* [stripe.createCustomer(...)], where [stripe] is the
                   module config/stripe.js *)
                customerId <-
                  (if exported "createCustomer" then
                     liftOutcome (customers_create sdk uid)
                   else throw (TypeError
                                 "stripe.createCustomer is not a function")) ;;
                (* [user.stripeCustomerId = customerId]: the path is not
                   declared, the assignment does not reach the store *)
                save user ;;
                ret customerId
            end ;;
          checkoutSession <-
            stripe_createCheckoutSession (checkoutArgument customerId body)
              Undefined Undefined Undefined ;;
          trackEvent "subscription_checkout_initiated" uid ;;
          ret (OK, CheckoutReply (checkout_id checkoutSession)
                     (checkout_url checkoutSession))
    end.

(** [createPortalSession] (lines 272-291). *)
Definition createPortalSession (uid : string) (returnUrl : option string)
  : M (nat * Reply) :=
  user <- findById uid ;;
  match user with
  | None =>
      throw (ApiError NOT_FOUND
               "User not found or no Stripe customer associated")
  | Some user =>
      match truthyString (user_stripeCustomerId user) with
      | None =>
          throw (ApiError NOT_FOUND
                   "User not found or no Stripe customer associated")
      | Some customerId =>
          portalUrl <-
            stripe_createCustomerPortalSession customerId
              (orDefault returnUrl (config_frontendUrl envVars ++ "/account")) ;;
          ret (OK, PortalReply portalUrl)
      end
  end.

(** [applyDiscount] (lines 639-675). *)
Definition applyDiscount (uid : string) (couponId : option string)
  : M (nat * Reply) :=
  match truthyString couponId with
  | None => throw (ApiError BAD_REQUEST "Coupon ID is required")
  | Some coupon =>
      user <- findById uid ;;
      match user with
      | None => throw (ApiError NOT_FOUND "User not found")
      | Some user =>
          match truthyString (user_stripeCustomerId user) with
          | None => throw (ApiError BAD_REQUEST "No customer ID found")
          | Some customerId =>
              (* [stripe.customers.update(...)], where [stripe] is the
                 module config/stripe.js *)
              (if exported "customers" then
                 liftOutcome (customers_update sdk customerId coupon)
               else throw (TypeError
                 "Cannot read properties of undefined (reading 'update')")) ;;
              trackEvent "discount_applied" uid ;;
              ret (OK, DiscountReply "Discount applied successfully")
          end
      end
  end.

End Program.

(** ** models/subscription.model.js: [getFeaturesInLanguage] *)

Record Feature : Type := {
  feature_name : string;
  feature_description : option string;
  feature_enabled : bool;
  feature_limit : option Z
}.

(** An entry of [translations[lang].features]. *)
Record LocalizedFeature : Type := {
  localized_name : option string;
  localized_description : option string
}.

Record Translation : Type := {
  translation_name : option string;
  translation_description : option string;
  translation_features : option (list LocalizedFeature)
}.

(** A subscription plan document, with the paths the method reads. *)
Record Plan : Type := {
  features : list Feature;
  translations : option (list (string * Translation))
}.

(** [translations[lang]]. *)
Fixpoint translationFor (lang : string) (ts : list (string * Translation))
  : option Translation :=
  match ts with
  | [] => None
  | (l, t) :: rest => if l =? lang then Some t else translationFor lang rest
  end.

(** [a || b] on string-or-undefined values. *)
Definition orElse (a b : option string) : option string :=
  match truthyString a with
  | Some s => Some s
  | None => b
  end.

(** [{...feature.toObject(), name: localizedFeature.name || feature.name,
      description: localizedFeature.description || feature.description}] *)
Definition localizeFeature (localizedFeature : LocalizedFeature)
  (feature : Feature) : Feature :=
  {| feature_name :=
       match truthyString (localized_name localizedFeature) with
       | Some s => s
       | None => feature_name feature
       end;
     feature_description :=
       orElse (localized_description localizedFeature)
         (feature_description feature);
     feature_enabled := feature_enabled feature;
     feature_limit := feature_limit feature |}.

(** [localizedFeatures[index] || {}] *)
Definition localizedAt (localizedFeatures : list LocalizedFeature)
  (index : nat) : LocalizedFeature :=
  match nth_error localizedFeatures index with
  | Some lf => lf
  | None => {| localized_name := None; localized_description := None |}
  end.

(** [this.features.map((feature, index) => ...)], from [index] on. *)
Fixpoint mapFeatures (localizedFeatures : list LocalizedFeature) (index : nat)
  (l : list Feature) : list Feature :=
  match l with
  | [] => []
  | feature :: rest =>
      localizeFeature (localizedAt localizedFeatures index) feature
      :: mapFeatures localizedFeatures (S index) rest
  end.

(** [lang] is [None] when the argument is omitted: it defaults to ['en']. *)
Definition getFeaturesInLanguage (this : Plan) (lang : option string)
  : list Feature :=
  let lang := match lang with Some l => l | None => "en" end in
  match translations this with
  | None => features this
  | Some ts =>
      match translationFor lang ts with
      | None => features this
      | Some t =>
          let localizedFeatures :=
            match translation_features t with
            | Some l => l
            | None => []
            end in
          mapFeatures localizedFeatures 0 (features this)
      end
  end.

(** * Derived notions *)

(** [translations[lang].features || []], and no entry at all when the
    language has no translation. *)
Definition localizedFeaturesOf (this : Plan) (lang : string)
  : list LocalizedFeature :=
  match translations this with
  | None => []
  | Some ts =>
      match translationFor lang ts with
      | None => []
      | Some t =>
          match translation_features t with
          | Some l => l
          | None => []
          end
      end
  end.

(** The names of a list of features are truthy. *)
Definition named (l : list Feature) : Prop :=
  Forall (fun f => feature_name f <> "") l.

(** Deliveries of a webhook request, and of a decoded event. *)
Definition deliver (logger : Logger) (mongoose : Mongoose) (env : Env)
  (req : WebhookRequest) : World -> World :=
  exec (handleStripeWebhook logger mongoose env req).

Definition applyEvent (logger : Logger) (mongoose : Mongoose) (env : Env)
  (e : StripeEvent) : World -> World :=
  exec (dispatchEvent logger mongoose env e).

(** Deliveries of one request in sequence, each in the environment of its
    own. *)
Definition deliveries (logger : Logger) (mongoose : Mongoose)
  (envs : list Env) (req : WebhookRequest) (w : World) : World :=
  fold_left (fun w' env => deliver logger mongoose env req w') envs w.

(** The environment of a delivery decodes the request to [e], or rejects
    it. *)
Definition decodesTo (req : WebhookRequest) (e : StripeEvent) (env : Env)
  : Prop :=
  forall signature e',
    truthyString (stripe_signature req) = Some signature ->
    webhooks_constructEvent env signature (body req) (webhookSecret env)
    = Returned e' ->
    e' = e.

(** The answer to a delivery that has been processed. *)
Definition acknowledged : Response :=
  {| statusCode := 200; json := Received true |}.

(** The event types of a [BillingEvent] in the specification. *)
Definition billingEventTypes : list string :=
  [ "customer.subscription.created"; "customer.subscription.updated";
    "customer.subscription.deleted"; "invoice.payment_succeeded";
    "invoice.payment_failed" ].

Definition isSubscriptionChange (e : StripeEvent) : Prop :=
  event_type e = "customer.subscription.created"
  \/ event_type e = "customer.subscription.updated".

(** The statuses for which [handleSubscriptionUpdated] calls a method of
    [user.roles]. *)
Definition touchesRoles (st : string) : bool :=
  (st =? "active") || includes st ["canceled"; "unpaid"; "past_due"].

(** ** What a delivery does to the state store

    The documents after an event has been dispatched, as a function of the
    documents before it. *)

Section Transitions.

Context (mongoose : Mongoose) (env : Env).

(** The document that [handleSubscriptionUpdated] hands to [save], when it
    gets that far. *)
Definition updatedDocument (o : EventObject) (l : list User) : option User :=
  match find (selected mongoose (bySubscriptionId (obj_id o))) l with
  | Some user =>
      match subscription user, o with
      | Some sb, ObjSubscription s =>
          match sub_items_data s with
          | item :: _ =>
              if touchesRoles (sub_status s) then None
              else Some (applySubscriptionUpdate s item user sb)
          | [] => None
          end
      | _, _ => None
      end
  | None => None
  end.

Definition documentToSave (e : StripeEvent) (l : list User) : option User :=
  if (event_type e =? "customer.subscription.created")
     || (event_type e =? "customer.subscription.updated")
  then updatedDocument (data_object e) l
  else None.

Definition written (u : User) (l : list User) : list User :=
  match save_rejects env u with
  | Some _ => l
  | None => replaceUser u l
  end.

Definition usersAfterEvent (e : StripeEvent) (l : list User) : list User :=
  match documentToSave e l with
  | Some u => written u l
  | None => l
  end.

Definition usersAfterDelivery (req : WebhookRequest) (l : list User)
  : list User :=
  match truthyString (stripe_signature req) with
  | Some signature =>
      match webhooks_constructEvent env signature (body req)
              (webhookSecret env) with
      | Returned e => usersAfterEvent e l
      | Thrown _ => l
      end
  | None => l
  end.

End Transitions.

(** ** The invariant of the specification *)

(** [status] is one of active, trialing, past_due. *)
Definition entitled (st : option string) : bool :=
  match st with
  | Some s => (s =? "active") || (s =? "trialing") || (s =? "past_due")
  | None => false
  end.

(** The identifier of the subscription at the provider is
    [stripeSubscriptionId].  The record has no status when [status] is
    [undefined]: the code has no status literal for an account without
    subscription. *)
Definition recordInvariant (sb : Subscription) : Prop :=
  (entitled (status sb) = true -> stripeSubscriptionId sb <> None)
  /\ (status sb = None -> cancelAtPeriodEnd sb = false).

Definition userInvariant (u : User) : Prop :=
  match subscription u with
  | Some sb => recordInvariant sb
  | None => True
  end.

Definition storeInvariant (l : list User) : Prop :=
  Forall userInvariant l.

(** ** Operations *)

(** The operations of the controller that assign to a path of
    [user.subscription]. *)
Inductive Operation : Type :=
| OpWebhook (req : WebhookRequest)
| OpGetUserSubscription (uid : string)
| OpCancelSubscription (uid : string) (cancelImmediately : bool)
| OpReactivateSubscription (uid : string)
| OpUpdateSubscription (uid : string) (newPlanId : option string).

Definition perform (logger : Logger) (mongoose : Mongoose) (env : Env)
  (envVars : EnvVars) (op : Operation) : M Response :=
  match op with
  | OpWebhook req => handleStripeWebhook logger mongoose env req
  | OpGetUserSubscription uid => getUserSubscription logger env uid
  | OpCancelSubscription uid now => cancelSubscription logger env uid now
  | OpReactivateSubscription uid => reactivateSubscription env uid
  | OpUpdateSubscription uid newPlanId =>
      updateSubscription logger env envVars uid newPlanId
  end.

(** Operations in sequence, each in the environment of its own. *)
Definition performAll (logger : Logger) (mongoose : Mongoose)
  (envVars : EnvVars) (steps : list (Env * Operation)) (w : World) : World :=
  fold_left
    (fun w' step =>
       exec (perform logger mongoose (fst step) envVars (snd step)) w')
    steps w.

(** What no operation changes in a document. *)
Definition frameOf (u : User)
  : string * string
    * option (option string * option string * option Date) :=
  (userId u, role u,
   match subscription u with
   | Some sb =>
       Some (stripeCustomerId sb, stripeSubscriptionId sb,
             currentPeriodStart sb)
   | None => None
   end).

(** * Sample data *)

(** A user whose subscription was canceled. *)
Definition alice : User :=
  {| userId := "u1"; role := "user";
     subscription :=
       Some {| planId := Some "basic"; status := Some "canceled";
               stripeCustomerId := Some "cus_1";
               stripeSubscriptionId := None;
               currentPeriodStart := None;
               currentPeriodEnd := Some (ValidDate 1000);
               cancelAtPeriodEnd := false |} |}.

(** A user with a subscription at the provider that is set to end with the
    period. *)
Definition bob : User :=
  {| userId := "u2"; role := "user";
     subscription :=
       Some {| planId := Some "pro"; status := Some "active";
               stripeCustomerId := Some "cus_2";
               stripeSubscriptionId := Some "sub_2";
               currentPeriodStart := Some (ValidDate 500);
               currentPeriodEnd := Some (ValidDate 1000);
               cancelAtPeriodEnd := true |} |}.

Definition world_of (l : list User) : World :=
  {| users := l; analytics := []; stripeCalls := [] |}.

(** Mongoose with [strictQuery]: a condition on an undeclared path is
    dropped, every document qualifies. *)
Definition strictQuery : Mongoose :=
  {| selects := fun _ _ => true |}.

(** Mongoose without it, on documents that were stored through the schema:
    none has the path. *)
Definition rawQuery : Mongoose :=
  {| selects := fun _ _ => false |}.

Definition provider_sub (st : string) (periodEnd : Z) (cancel : bool)
  : StripeSubscription :=
  {| sub_id := "sub_1"; sub_customer := Some "cus_1"; sub_status := st;
     sub_current_period_end := periodEnd; sub_cancel_at_period_end := cancel;
     sub_items_data := [ {| item_id := "si_1"; price_id := "pro" |} ] |}.

(** A provider that is down and a webhook verifier that rejects; the state
    store accepts every write. *)
Definition env_down : Env :=
  {| webhookSecret := "whsec_test_secret";
     webhooks_constructEvent := fun _ _ _ =>
       Thrown (StripeError "No signatures found matching the expected signature for payload");
     subscriptions_retrieve := fun _ => Thrown (StripeError "connection refused");
     subscriptions_update := fun _ _ => Thrown (StripeError "connection refused");
     subscriptions_cancel := fun _ => Thrown (StripeError "connection refused");
     save_rejects := fun _ => None;
     analytics_rejects := fun _ => false |}.

(** A provider that answers every request with the subscription [sub_1],
    active until [2000], and a verifier that decodes [e] from every
    delivery. *)
Definition env_up (e : StripeEvent) : Env :=
  {| webhookSecret := "whsec_test_secret";
     webhooks_constructEvent := fun _ _ _ => Returned e;
     subscriptions_retrieve := fun _ => Returned (provider_sub "active" 2 false);
     subscriptions_update := fun _ p =>
       Returned (provider_sub "active" 2
                   (match cancel_at_period_end p with
                    | Some b => b
                    | None => false
                    end));
     subscriptions_cancel := fun _ => Returned (provider_sub "canceled" 2 false);
     save_rejects := fun _ => None;
     analytics_rejects := fun _ => false |}.

Definition writeError : Error := MongooseError "User validation failed".

(** The same, with a state store that rejects every write. *)
Definition env_readonly (e : StripeEvent) : Env :=
  {| webhookSecret := webhookSecret (env_up e);
     webhooks_constructEvent := webhooks_constructEvent (env_up e);
     subscriptions_retrieve := subscriptions_retrieve (env_up e);
     subscriptions_update := subscriptions_update (env_up e);
     subscriptions_cancel := subscriptions_cancel (env_up e);
     save_rejects := fun _ => Some writeError;
     analytics_rejects := fun _ => false |}.

Definition subscription_event (type : string) (t : Z) (s : StripeSubscription)
  : StripeEvent :=
  {| event_id := "evt_1"; event_type := type; created := t;
     data_object := ObjSubscription s |}.

Definition update_event (t : Z) (st : string) (periodEnd : Z) : StripeEvent :=
  subscription_event "customer.subscription.updated" t
    (provider_sub st periodEnd false).

(** An older and a newer state of the same subscription. *)
Definition e_old : StripeEvent := update_event 100 "incomplete" 1.
Definition e_new : StripeEvent := update_event 200 "trialing" 3.

Definition forged : WebhookRequest :=
  {| stripe_signature := Some "invalid_signature";
     body := "{id: 'evt_test123', type: 'customer.subscription.created'}" |}.

Definition signed : WebhookRequest :=
  {| stripe_signature := Some "t=1,v1=5257a869"; body := "{id: 'evt_1'}" |}.

Definition checkout_event : StripeEvent :=
  {| event_id := "evt_2"; event_type := "checkout.session.completed";
     created := 50;
     data_object :=
       ObjSession {| session_id := "cs_1";
                     session_subscription := Some "sub_new";
                     session_customer := Some "cus_1" |} |}.

Definition customer_created_event : StripeEvent :=
  {| event_id := "evt_3"; event_type := "customer.created"; created := 10;
     data_object :=
       ObjSession {| session_id := "cus_9"; session_subscription := None;
                     session_customer := None |} |}.

Definition invoice_event : StripeEvent :=
  {| event_id := "evt_4"; event_type := "invoice.payment_failed";
     created := 11;
     data_object :=
       ObjInvoice {| invoice_id := "in_1";
                     invoice_subscription := Some "sub_1";
                     invoice_customer := Some "cus_1" |} |}.

Definition vars_0 : EnvVars :=
  {| FRONTEND_URL := "http://localhost:3000";
     STRIPE_SECRET_KEY := Some "sk_test_key";
     STRIPE_WEBHOOK_SECRET := Some "whsec_test_secret";
     PRICING_BASIC_PLAN_ID := Some "price_basic";
     PRICING_PRO_PLAN_ID := Some "price_pro";
     PRICING_ENTERPRISE_PLAN_ID := None |}.

Definition sdk_up : Sdk :=
  {| customers_create := fun _ => Returned "cus_new";
     customers_update := fun _ _ => Returned tt;
     checkout_sessions_create := fun _ =>
       Returned {| checkout_id := "cs_test_1";
                   checkout_url := "https://checkout.stripe.com/c/pay/cs_test_1" |};
     billingPortal_sessions_create := fun _ _ =>
       Returned "https://billing.stripe.com/p/session/test_1" |}.

Definition plan_pro : Plan :=
  {| features :=
       [ {| feature_name := "Articles"; feature_description := Some "All articles";
            feature_enabled := true; feature_limit := None |};
         {| feature_name := "Translations"; feature_description := None;
            feature_enabled := true; feature_limit := Some 100%Z |};
         {| feature_name := "Support"; feature_description := None;
            feature_enabled := false; feature_limit := None |} ];
     translations :=
       Some [ ("fr",
               {| translation_name := Some "Pro";
                  translation_description := None;
                  translation_features :=
                    Some [ {| localized_name := Some "Articles (fr)";
                              localized_description := Some "" |};
                           {| localized_name := Some "";
                              localized_description := Some "Traductions" |} ] |}) ] |}.

(** The document [user] with the status, period end, cancellation flag and
    plan of the provider subscription [s], and every other path as in the
    record [sb]. *)
Definition overwritten (s : StripeSubscription) (item : SubscriptionItem)
  (user : User) (sb : Subscription) : User :=
  {| userId := userId user;
     role := role user;
     subscription :=
       Some {| planId := Some (price_id item);
               status := Some (sub_status s);
               stripeCustomerId := stripeCustomerId sb;
               stripeSubscriptionId := stripeSubscriptionId sb;
               currentPeriodStart := currentPeriodStart sb;
               currentPeriodEnd :=
                 Some (newDate (sub_current_period_end s * 1000));
               cancelAtPeriodEnd := sub_cancel_at_period_end s |} |}.

(** * Properties *)

(** ** The logger *)

(** [logger.error] never returns: whatever the depth of the call stack, the
    call ends in [RangeError]. *)
Lemma logger_error_throws (frames : nat) (args : list LogArg) :
  logger_error frames args = Thrown stackOverflow.
Proof.
  induction frames as [|frames IH]; simpl; [reflexivity | exact IH].
Qed.

(** ** The state store *)

Lemma replaceUser_idempotent (u : User) (l : list User) :
  replaceUser u (replaceUser u l) = replaceUser u l.
Proof.
  unfold replaceUser. rewrite map_map. apply map_ext. intros x.
  destruct (userId x =? userId u) eqn:E; [|rewrite E; reflexivity].
  rewrite String.eqb_refl. reflexivity.
Qed.

(** A query that selects by identifier finds, after a write, the document
    it found before, or the written document in its place. *)
Lemma find_replaceUser (p : string -> bool) (u : User) (l : list User) :
  find (fun x => p (userId x)) (replaceUser u l)
  = option_map (fun x => if userId x =? userId u then u else x)
      (find (fun x => p (userId x)) l).
Proof.
  induction l as [|x l IH]; simpl; [reflexivity|].
  destruct (userId x =? userId u) eqn:E.
  - pose proof E as E'. apply String.eqb_eq in E'. rewrite E'.
    destruct (p (userId u)); simpl; [rewrite E; reflexivity | exact IH].
  - destruct (p (userId x)); simpl; [rewrite E; reflexivity | exact IH].
Qed.

Lemma find_selected_replaceUser (mongoose : Mongoose) (filter : Filter)
  (u u0 : User) (l : list User) :
  find (selected mongoose filter) l = Some u0 ->
  userId u = userId u0 ->
  find (selected mongoose filter) (replaceUser u l) = Some u.
Proof.
  intros Hfind Hid. unfold selected in *.
  rewrite (find_replaceUser (selects mongoose filter)), Hfind. simpl.
  rewrite Hid, String.eqb_refl. reflexivity.
Qed.

Lemma truthyString_Some (x : option string) (s : string) :
  truthyString x = Some s -> x = Some s.
Proof.
  destruct x as [y|]; simpl; [|discriminate].
  destruct (y =? ""); [discriminate | congruence].
Qed.

(** ** The in-memory update *)

Lemma applySubscriptionUpdate_overwritten (s : StripeSubscription)
  (item : SubscriptionItem) (user : User) (sb : Subscription) :
  applySubscriptionUpdate s item user sb = overwritten s item user sb.
Proof.
  destruct sb as [plan st cid sid ps pe cancel].
  unfold applySubscriptionUpdate, overwritten, set_subscription. simpl.
  destruct plan as [p|]; simpl; [|reflexivity].
  destruct (price_id item =? p) eqn:E; [|reflexivity].
  apply String.eqb_eq in E. subst p. reflexivity.
Qed.

(** ** Unfolding the program *)

Ltac unfold_program :=
  unfold deliver, applyEvent, perform in *;
  unfold exec, outcome, handleStripeWebhook, dispatchEvent,
    handleCheckoutSessionCompleted, handleSubscriptionUpdated,
    handleSubscriptionDeleted, handleInvoicePaymentSucceeded,
    handleInvoicePaymentFailed, updateRoles,
    getUserSubscription, cancelSubscription,
    reactivateSubscription, updateSubscription,
    createCheckoutSession, createPortalSession, applyDiscount,
    stripe_getSubscription, stripe_updateSubscription,
    stripe_cancelSubscription, stripe_reactivateSubscription,
    stripe_constructEventFromPayload, stripe_createCheckoutSession,
    stripe_createCustomerPortalSession, stripeRequest, trackEvent, save,
    findById, findOne, logger_error_call, liftOutcome, tryCatch, bind, ret,
    throw, set_users, roles, user_stripeCustomerId, subscriptionId in *.

Ltac case_logger :=
  match goal with
  | |- context [error ?l ?s] => destruct (error l s) as [[]|?]; simpl
  end.

Ltac case_save :=
  match goal with
  | |- context [save_rejects ?e ?u] => destruct (save_rejects e u) eqn:?; simpl
  end.

Ltac case_analytics :=
  match goal with
  | |- context [analytics_rejects ?e ?a] =>
      destruct (analytics_rejects e a); simpl
  end.

Ltac finish_effect :=
  repeat first [case_logger | case_save | case_analytics]; reflexivity.

(** Case analysis on the innermost scrutinee that is stuck. *)
Ltac destruct_innermost :=
  match goal with
  | |- context [match ?x with _ => _ end] =>
      lazymatch x with
      | context [match _ with _ => _ end] => fail
      | _ => destruct x eqn:?
      end
  end.

Ltac all_cases := unfold_program; simpl; repeat (destruct_innermost; simpl).

(** ** What the handlers do to the user documents *)

Section Effects.

Context (logger : Logger) (mongoose : Mongoose) (env : Env).

Lemma users_handleCheckoutSessionCompleted (o : EventObject) (w : World) :
  users (exec (handleCheckoutSessionCompleted logger mongoose env o) w)
  = users w
  /\ analytics (exec (handleCheckoutSessionCompleted logger mongoose env o) w)
     = analytics w.
Proof. all_cases; split; reflexivity. Qed.

Lemma users_handleSubscriptionDeleted (o : EventObject) (w : World) :
  exec (handleSubscriptionDeleted logger mongoose env o) w = w.
Proof. all_cases; reflexivity. Qed.

Lemma users_handleInvoicePaymentSucceeded (o : EventObject) (w : World) :
  users (exec (handleInvoicePaymentSucceeded logger mongoose env o) w)
  = users w.
Proof. all_cases; reflexivity. Qed.

Lemma users_handleInvoicePaymentFailed (o : EventObject) (w : World) :
  users (exec (handleInvoicePaymentFailed logger mongoose env o) w)
  = users w.
Proof. all_cases; reflexivity. Qed.

Lemma users_handleSubscriptionUpdated (o : EventObject) (w : World) :
  users (exec (handleSubscriptionUpdated logger mongoose env o) w)
  = match updatedDocument mongoose o (users w) with
    | Some u => written env u (users w)
    | None => users w
    end.
Proof.
  unfold updatedDocument, written, touchesRoles. all_cases;
    try reflexivity; try discriminate.
Qed.

Lemma users_dispatchEvent (e : StripeEvent) (w : World) :
  users (applyEvent logger mongoose env e w)
  = usersAfterEvent mongoose env e (users w).
Proof.
  unfold applyEvent, dispatchEvent, usersAfterEvent, documentToSave.
  destruct (event_type e =? "checkout.session.completed") eqn:E1.
  { apply String.eqb_eq in E1. rewrite E1. simpl.
    apply users_handleCheckoutSessionCompleted. }
  destruct ((event_type e =? "customer.subscription.created")
            || (event_type e =? "customer.subscription.updated")) eqn:E2.
  { apply users_handleSubscriptionUpdated. }
  destruct (event_type e =? "customer.subscription.deleted").
  { rewrite users_handleSubscriptionDeleted. reflexivity. }
  destruct (event_type e =? "invoice.payment_succeeded").
  { apply users_handleInvoicePaymentSucceeded. }
  destruct (event_type e =? "invoice.payment_failed").
  { apply users_handleInvoicePaymentFailed. }
  unfold exec, logger_error_call, liftOutcome. reflexivity.
Qed.

(** The user documents after a delivery of [req]. *)
Lemma users_deliver (req : WebhookRequest) (w : World) :
  users (deliver logger mongoose env req w)
  = usersAfterDelivery mongoose env req (users w).
Proof.
  unfold usersAfterDelivery, deliver, exec, handleStripeWebhook.
  destruct (truthyString (stripe_signature req)) as [signature|];
    [|reflexivity].
  unfold tryCatch, bind, stripe_constructEventFromPayload, tryCatch,
    liftOutcome, logger_error_call, throw, ret.
  destruct (webhooks_constructEvent env signature (body req)
              (webhookSecret env)) as [e|err]; simpl.
  - rewrite <- users_dispatchEvent. unfold applyEvent, exec.
    destruct (dispatchEvent logger mongoose env e w) as [[[]|err] w'];
      simpl; [reflexivity|].
    finish_effect.
  - finish_effect.
Qed.

End Effects.

(** ** Redelivery *)

Section Redelivery.

Context (mongoose : Mongoose).

(** The document that an event writes is the document that the same event
    writes again after the write. *)
Lemma documentToSave_stable (e : StripeEvent) (l : list User) (u : User) :
  documentToSave mongoose e l = Some u ->
  documentToSave mongoose e (replaceUser u l) = Some u.
Proof.
  unfold documentToSave.
  destruct ((event_type e =? "customer.subscription.created")
            || (event_type e =? "customer.subscription.updated"));
    [|discriminate].
  unfold updatedDocument.
  destruct (find (selected mongoose (bySubscriptionId (obj_id (data_object e))))
              l) as [user|] eqn:Hfind; [|discriminate].
  destruct (subscription user) as [sb|] eqn:Hsb; [|discriminate].
  destruct (data_object e) as [?|s|?]; try discriminate.
  destruct (sub_items_data s) as [|item rest]; [discriminate|].
  destruct (touchesRoles (sub_status s)); [discriminate|].
  intros [= <-].
  rewrite (find_selected_replaceUser mongoose _
             (applySubscriptionUpdate s item user sb) user l Hfind eq_refl).
  rewrite !applySubscriptionUpdate_overwritten. simpl.
  rewrite applySubscriptionUpdate_overwritten. reflexivity.
Qed.

(** A delivery after a delivery that has written changes nothing. *)
Lemma usersAfterEvent_absorbs (env1 env2 : Env) (e : StripeEvent)
  (l : list User) :
  usersAfterEvent mongoose env2 e (usersAfterEvent mongoose env1 e l)
  = usersAfterEvent mongoose env1 e l
  \/ usersAfterEvent mongoose env1 e l = l.
Proof.
  unfold usersAfterEvent.
  destruct (documentToSave mongoose e l) as [u|] eqn:Hdoc;
    [|right; reflexivity].
  destruct (save_rejects env1 u) as [err|] eqn:Hsave.
  - right. unfold written. rewrite Hsave. reflexivity.
  - left.
    assert (E : written env1 u l = replaceUser u l).
    { unfold written. rewrite Hsave. reflexivity. }
    rewrite E, (documentToSave_stable e l u Hdoc). unfold written.
    destruct (save_rejects env2 u); [reflexivity|].
    apply replaceUser_idempotent.
Qed.

Lemma usersAfterDelivery_cases (env : Env) (req : WebhookRequest)
  (e : StripeEvent) (l : list User) :
  decodesTo req e env ->
  usersAfterDelivery mongoose env req l = l
  \/ usersAfterDelivery mongoose env req l = usersAfterEvent mongoose env e l.
Proof.
  intros Hdec. unfold usersAfterDelivery.
  destruct (truthyString (stripe_signature req)) as [signature|] eqn:Hsig;
    [|left; reflexivity].
  destruct (webhooks_constructEvent env signature (body req)
              (webhookSecret env)) as [e'|] eqn:Hev; [|left; reflexivity].
  right. rewrite (Hdec signature e' Hsig Hev). reflexivity.
Qed.

Lemma usersAfterDelivery_absorbs (env1 env2 : Env) (req : WebhookRequest)
  (e : StripeEvent) (l : list User) :
  decodesTo req e env1 -> decodesTo req e env2 ->
  usersAfterDelivery mongoose env2 req (usersAfterDelivery mongoose env1 req l)
  = usersAfterDelivery mongoose env1 req l
  \/ usersAfterDelivery mongoose env1 req l = l.
Proof.
  intros H1 H2.
  destruct (usersAfterDelivery_cases env1 req e l H1) as [E1|E1];
    [right; exact E1|].
  rewrite E1.
  destruct (usersAfterDelivery_cases env2 req e
              (usersAfterEvent mongoose env1 e l) H2) as [E2|E2];
    [left; exact E2|].
  rewrite E2. apply usersAfterEvent_absorbs.
Qed.

(** The documents after a sequence of deliveries. *)
Lemma users_deliveries (logger : Logger) (envs : list Env)
  (req : WebhookRequest) :
  forall w,
    users (deliveries logger mongoose envs req w)
    = fold_left (fun l env => usersAfterDelivery mongoose env req l) envs
        (users w).
Proof.
  unfold deliveries.
  induction envs as [|env envs IH]; intros w; simpl; [reflexivity|].
  rewrite IH, users_deliver. reflexivity.
Qed.

(** After any number of deliveries the documents are those that one of the
    deliveries leaves by itself. *)
Lemma deliveries_as_one (req : WebhookRequest) (e : StripeEvent)
  (envs : list Env) :
  forall (env : Env) (l : list User),
    Forall (decodesTo req e) (env :: envs) ->
    exists env',
      In env' (env :: envs)
      /\ fold_left (fun l' env'' => usersAfterDelivery mongoose env'' req l')
           envs (usersAfterDelivery mongoose env req l)
         = usersAfterDelivery mongoose env' req l.
Proof.
  induction envs as [|env2 envs IH]; intros env l Hall; simpl.
  - exists env. split; [left; reflexivity | reflexivity].
  - inversion Hall as [|? ? Henv Hrest]; subst.
    inversion Hrest as [|? ? Henv2 Hrest']; subst.
    destruct (usersAfterDelivery_absorbs env env2 req e l Henv Henv2)
      as [E|E].
    + rewrite E.
      destruct (IH env l) as (env' & Hin & Heq);
        [constructor; assumption|].
      exists env'. split; [|exact Heq].
      destruct Hin as [<-|Hin]; [left; reflexivity | right; right; exact Hin].
    + rewrite E.
      destruct (IH env2 l Hrest) as (env' & Hin & Heq).
      exists env'. split; [right; exact Hin | exact Heq].
Qed.

End Redelivery.

(** C1. Delivering the same event any number of times in sequence,
    whatever the logger, the query layer and the collaborators do at each
    delivery, leaves the user documents in exactly the state that one of
    these deliveries produces by itself from the initial documents; with the
    same collaborators at each delivery, [n + 1] deliveries leave what one
    delivery leaves. *)
Theorem redelivery_is_idempotent (logger : Logger) (mongoose : Mongoose)
  (req : WebhookRequest) (e : StripeEvent) (env : Env) (envs : list Env)
  (w : World) :
  Forall (decodesTo req e) (env :: envs) ->
  (exists env',
     In env' (env :: envs)
     /\ users (deliveries logger mongoose (env :: envs) req w)
        = users (deliver logger mongoose env' req w))
  /\ (forall n,
        users (deliveries logger mongoose (repeat env (S n)) req w)
        = users (deliver logger mongoose env req w)).
Proof.
  intros Hall. split.
  - rewrite users_deliveries. simpl.
    destruct (deliveries_as_one mongoose req e envs env (users w) Hall)
      as (env' & Hin & Heq).
    exists env'. split; [exact Hin|].
    rewrite Heq, users_deliver. reflexivity.
  - intros n. rewrite users_deliveries. simpl.
    assert (Hrepeat : Forall (decodesTo req e) (env :: repeat env n)).
    { inversion Hall; subst. constructor; [assumption|].
      apply Forall_forall. intros x Hx. apply repeat_spec in Hx. subst x.
      assumption. }
    destruct (deliveries_as_one mongoose req e (repeat env n) env (users w)
                Hrepeat) as (env' & Hin & Heq).
    rewrite Heq, users_deliver.
    destruct Hin as [<-|Hin]; [reflexivity|].
    apply repeat_spec in Hin. subst env'. reflexivity.
Qed.

Lemma redelivery_is_idempotent_witness :
  Forall (decodesTo signed e_new)
    [env_up e_new; env_readonly e_new; env_down; env_up e_new]
  /\ users (deliver (utils_logger 1000) strictQuery (env_up e_new) signed
              (world_of [alice]))
     <> [alice]
  /\ exists env',
       In env' [env_up e_new; env_readonly e_new; env_down; env_up e_new]
       /\ users (deliveries (utils_logger 1000) strictQuery
                   [env_up e_new; env_readonly e_new; env_down; env_up e_new]
                   signed (world_of [alice]))
          = users (deliver (utils_logger 1000) strictQuery env' signed
                     (world_of [alice])).
Proof.
  assert (Hall : Forall (decodesTo signed e_new)
                   [env_up e_new; env_readonly e_new; env_down; env_up e_new]).
  { repeat constructor; intros signature e' _; simpl; congruence. }
  split; [exact Hall|]. split; [discriminate|].
  exact (proj1 (redelivery_is_idempotent (utils_logger 1000) strictQuery
                  signed e_new (env_up e_new)
                  [env_readonly e_new; env_down; env_up e_new]
                  (world_of [alice]) Hall)).
Defined.

(** ** Subscription created/updated events *)

Section SubscriptionEvents.

Context (logger : Logger) (mongoose : Mongoose) (env : Env).

Lemma isSubscriptionChange_dispatch (e : StripeEvent) :
  isSubscriptionChange e ->
  (event_type e =? "customer.subscription.created")
  || (event_type e =? "customer.subscription.updated") = true.
Proof. intros [H|H]; rewrite H; reflexivity. Qed.

(** The documents after a subscription created/updated event. *)
Lemma usersAfterEvent_change (e : StripeEvent) (l : list User) :
  isSubscriptionChange e ->
  usersAfterEvent mongoose env e l
  = match updatedDocument mongoose (data_object e) l with
    | Some u => written env u l
    | None => l
    end.
Proof.
  intros Htype. unfold usersAfterEvent, documentToSave.
  rewrite (isSubscriptionChange_dispatch e Htype). reflexivity.
Qed.

(** When the handler gets as far as [save] and the store accepts the write,
    the selected document is overwritten. *)
Lemma subscription_event_writes (e : StripeEvent) (s : StripeSubscription)
  (item : SubscriptionItem) (rest : list SubscriptionItem) (user : User)
  (sb : Subscription) (w : World) :
  isSubscriptionChange e ->
  data_object e = ObjSubscription s ->
  find (selected mongoose (bySubscriptionId (sub_id s))) (users w)
  = Some user ->
  subscription user = Some sb ->
  sub_items_data s = item :: rest ->
  touchesRoles (sub_status s) = false ->
  save_rejects env (overwritten s item user sb) = None ->
  users (applyEvent logger mongoose env e w)
  = replaceUser (overwritten s item user sb) (users w).
Proof.
  intros Htype Hobj Hfind Hsb Hitems Hroles Hsave.
  rewrite users_dispatchEvent, usersAfterEvent_change by exact Htype.
  unfold updatedDocument. rewrite Hobj. simpl obj_id.
  rewrite Hfind, Hsb, Hitems, Hroles, applySubscriptionUpdate_overwritten.
  unfold written. rewrite Hsave. reflexivity.
Qed.

(** When the handler calls a method of [user.roles], or does not get as far
    as [save], or the store rejects the write, nothing is written. *)
Lemma subscription_event_write_only (e : StripeEvent) (w : World) :
  users (applyEvent logger mongoose env e w) <> users w ->
  exists s item rest user sb,
    isSubscriptionChange e
    /\ data_object e = ObjSubscription s
    /\ find (selected mongoose (bySubscriptionId (sub_id s))) (users w)
       = Some user
    /\ subscription user = Some sb
    /\ sub_items_data s = item :: rest
    /\ touchesRoles (sub_status s) = false
    /\ save_rejects env (overwritten s item user sb) = None
    /\ users (applyEvent logger mongoose env e w)
       = replaceUser (overwritten s item user sb) (users w).
Proof.
  rewrite users_dispatchEvent. unfold usersAfterEvent, documentToSave.
  destruct ((event_type e =? "customer.subscription.created")
            || (event_type e =? "customer.subscription.updated")) eqn:Htype;
    [|intros H; contradiction H; reflexivity].
  assert (Hchange : isSubscriptionChange e).
  { apply orb_true_iff in Htype. unfold isSubscriptionChange.
    destruct Htype as [H|H]; apply String.eqb_eq in H; auto. }
  unfold updatedDocument.
  destruct (data_object e) as [c|s|i] eqn:Hobj; simpl obj_id.
  1,3: destruct (find _ (users w)) as [user|];
       [destruct (subscription user)|];
       intros H; contradiction H; reflexivity.
  destruct (find (selected mongoose (bySubscriptionId (sub_id s))) (users w))
    as [user|] eqn:Hfind; [|intros H; contradiction H; reflexivity].
  destruct (subscription user) as [sb|] eqn:Hsb;
    [|intros H; contradiction H; reflexivity].
  destruct (sub_items_data s) as [|item rest] eqn:Hitems;
    [intros H; contradiction H; reflexivity|].
  destruct (touchesRoles (sub_status s)) eqn:Hroles;
    [intros H; contradiction H; reflexivity|].
  rewrite applySubscriptionUpdate_overwritten. unfold written.
  destruct (save_rejects env (overwritten s item user sb)) eqn:Hsave;
    [intros H; contradiction H; reflexivity|].
  intros _. exists s, item, rest, user, sb. repeat split; auto.
Qed.

End SubscriptionEvents.

(** C2, as stated, fails: the event [e_old] (event time 100, status
    incomplete, period end 1) is delivered after [e_new] (event time 200,
    status trialing, period end 3) and replaces the newer state. *)
Lemma stale_event_regresses_record :
  (created e_old < created e_new)%Z
  /\ users (applyEvent (utils_logger 1000) strictQuery (env_up e_new) e_new
              (world_of [alice]))
     = [ {| userId := "u1"; role := "user";
            subscription :=
              Some {| planId := Some "pro"; status := Some "trialing";
                      stripeCustomerId := Some "cus_1";
                      stripeSubscriptionId := None;
                      currentPeriodStart := None;
                      currentPeriodEnd := Some (ValidDate 3000);
                      cancelAtPeriodEnd := false |} |} ]
  /\ users (applyEvent (utils_logger 1000) strictQuery (env_up e_old) e_old
              (applyEvent (utils_logger 1000) strictQuery (env_up e_new) e_new
                 (world_of [alice])))
     = [ {| userId := "u1"; role := "user";
            subscription :=
              Some {| planId := Some "pro"; status := Some "incomplete";
                      stripeCustomerId := Some "cus_1";
                      stripeSubscriptionId := None;
                      currentPeriodStart := None;
                      currentPeriodEnd := Some (ValidDate 1000);
                      cancelAtPeriodEnd := false |} |} ].
Proof. repeat split; reflexivity. Qed.

(** C2, amended. The handler compares no timestamps.  For every subscription
    created/updated event, of any event time, whose filter selects a user
    with a subscription record, whose status is none of those for which the
    handler calls a method of [user.roles], whose object has a price item
    and whose write the store accepts, the event overwrites status, period
    end, cancellation flag and plan of the record with its own values and
    keeps the other paths. *)
Theorem subscription_event_overwrites_record (logger : Logger)
  (mongoose : Mongoose) (env : Env) (e : StripeEvent) (s : StripeSubscription)
  (item : SubscriptionItem) (rest : list SubscriptionItem) (user : User)
  (sb : Subscription) (w : World) :
  isSubscriptionChange e ->
  data_object e = ObjSubscription s ->
  find (selected mongoose (bySubscriptionId (sub_id s))) (users w)
  = Some user ->
  subscription user = Some sb ->
  sub_items_data s = item :: rest ->
  touchesRoles (sub_status s) = false ->
  save_rejects env (overwritten s item user sb) = None ->
  find (selected mongoose (bySubscriptionId (sub_id s)))
    (users (applyEvent logger mongoose env e w))
  = Some {| userId := userId user;
            role := role user;
            subscription :=
              Some {| planId := Some (price_id item);
                      status := Some (sub_status s);
                      stripeCustomerId := stripeCustomerId sb;
                      stripeSubscriptionId := stripeSubscriptionId sb;
                      currentPeriodStart := currentPeriodStart sb;
                      currentPeriodEnd :=
                        Some (newDate (sub_current_period_end s * 1000));
                      cancelAtPeriodEnd := sub_cancel_at_period_end s |} |}.
Proof.
  intros Htype Hobj Hfind Hsb Hitems Hroles Hsave.
  rewrite (subscription_event_writes logger mongoose env e s item rest user sb
             w Htype Hobj Hfind Hsb Hitems Hroles Hsave).
  apply (find_selected_replaceUser mongoose _ (overwritten s item user sb)
           user (users w) Hfind).
  reflexivity.
Qed.

Lemma subscription_event_overwrites_record_witness :
  find (selected strictQuery (bySubscriptionId "sub_1"))
    (users (applyEvent (utils_logger 1000) strictQuery (env_up e_old) e_old
              (world_of [alice; bob])))
  = Some {| userId := "u1"; role := "user";
            subscription :=
              Some {| planId := Some "pro"; status := Some "incomplete";
                      stripeCustomerId := Some "cus_1";
                      stripeSubscriptionId := None;
                      currentPeriodStart := None;
                      currentPeriodEnd := Some (ValidDate 1000);
                      cancelAtPeriodEnd := false |} |}.
Proof.
  apply (subscription_event_overwrites_record (utils_logger 1000) strictQuery
           (env_up e_old) e_old (provider_sub "incomplete" 1 false)
           {| item_id := "si_1"; price_id := "pro" |} [] alice
           {| planId := Some "basic"; status := Some "canceled";
              stripeCustomerId := Some "cus_1";
              stripeSubscriptionId := None;
              currentPeriodStart := None;
              currentPeriodEnd := Some (ValidDate 1000);
              cancelAtPeriodEnd := false |}
           (world_of [alice; bob]));
    try reflexivity.
  right. reflexivity.
Defined.

(** C3, as stated, fails: the two delivery orders of [e_old] and [e_new]
    end in different records. *)
Lemma delivery_order_changes_record :
  (created e_old < created e_new)%Z
  /\ users (applyEvent (utils_logger 1000) strictQuery (env_up e_new) e_new
              (applyEvent (utils_logger 1000) strictQuery (env_up e_old) e_old
                 (world_of [alice])))
     = [ {| userId := "u1"; role := "user";
            subscription :=
              Some {| planId := Some "pro"; status := Some "trialing";
                      stripeCustomerId := Some "cus_1";
                      stripeSubscriptionId := None;
                      currentPeriodStart := None;
                      currentPeriodEnd := Some (ValidDate 3000);
                      cancelAtPeriodEnd := false |} |} ]
  /\ users (applyEvent (utils_logger 1000) strictQuery (env_up e_old) e_old
              (applyEvent (utils_logger 1000) strictQuery (env_up e_new) e_new
                 (world_of [alice])))
     = [ {| userId := "u1"; role := "user";
            subscription :=
              Some {| planId := Some "pro"; status := Some "incomplete";
                      stripeCustomerId := Some "cus_1";
                      stripeSubscriptionId := None;
                      currentPeriodStart := None;
                      currentPeriodEnd := Some (ValidDate 1000);
                      cancelAtPeriodEnd := false |} |} ]
  /\ users (applyEvent (utils_logger 1000) strictQuery (env_up e_new) e_new
              (applyEvent (utils_logger 1000) strictQuery (env_up e_old) e_old
                 (world_of [alice])))
     <> users (applyEvent (utils_logger 1000) strictQuery (env_up e_old) e_old
                 (applyEvent (utils_logger 1000) strictQuery (env_up e_new)
                    e_new (world_of [alice]))).
Proof. repeat split; try reflexivity. discriminate. Qed.

(** The record that the filter of [e2] selects, after an event [e1] for the
    same subscription has been dispatched. *)
Lemma selected_after_event (logger : Logger) (mongoose : Mongoose)
  (env1 : Env) (e1 : StripeEvent) (sid : string) (user : User)
  (sb : Subscription) (w : World) :
  obj_id (data_object e1) = sid ->
  find (selected mongoose (bySubscriptionId sid)) (users w) = Some user ->
  subscription user = Some sb ->
  find (selected mongoose (bySubscriptionId sid))
    (users (applyEvent logger mongoose env1 e1 w)) = Some user
  \/ exists s1 item1,
       find (selected mongoose (bySubscriptionId sid))
         (users (applyEvent logger mongoose env1 e1 w))
       = Some (overwritten s1 item1 user sb).
Proof.
  intros Hid Hfind Hsb.
  rewrite users_dispatchEvent. unfold usersAfterEvent, documentToSave.
  destruct ((event_type e1 =? "customer.subscription.created")
            || (event_type e1 =? "customer.subscription.updated"));
    [|left; exact Hfind].
  unfold updatedDocument. rewrite Hid, Hfind, Hsb.
  destruct (data_object e1) as [c|s1|i]; [left; exact Hfind| |left; exact Hfind].
  destruct (sub_items_data s1) as [|item1 rest1]; [left; exact Hfind|].
  destruct (touchesRoles (sub_status s1)); [left; exact Hfind|].
  rewrite applySubscriptionUpdate_overwritten. unfold written.
  destruct (save_rejects env1 (overwritten s1 item1 user sb));
    [left; exact Hfind|].
  right. exists s1, item1.
  apply (find_selected_replaceUser mongoose _ (overwritten s1 item1 user sb)
           user (users w) Hfind).
  reflexivity.
Qed.

(** C3, amended. No timestamp ordering exists in the code.  For every event
    [e1] and every subscription created/updated event [e2] for the same
    subscription (the filter of [e2] selecting a user with a record, the
    status of [e2] being none of those for which the handler calls a method
    of [user.roles], its object having a price item, the store accepting its
    write), whatever the event times and whatever the collaborators do while
    [e1] is delivered: the record after the deliveries [e1], [e2] is the
    record that [e2] produces by itself.  The event delivered last wins. *)
Theorem last_delivered_event_wins (logger : Logger) (mongoose : Mongoose)
  (env1 env2 : Env) (e1 e2 : StripeEvent) (s2 : StripeSubscription)
  (item : SubscriptionItem) (rest : list SubscriptionItem) (user : User)
  (sb : Subscription) (w : World) :
  obj_id (data_object e1) = sub_id s2 ->
  isSubscriptionChange e2 ->
  data_object e2 = ObjSubscription s2 ->
  find (selected mongoose (bySubscriptionId (sub_id s2))) (users w)
  = Some user ->
  subscription user = Some sb ->
  sub_items_data s2 = item :: rest ->
  touchesRoles (sub_status s2) = false ->
  save_rejects env2 (overwritten s2 item user sb) = None ->
  find (selected mongoose (bySubscriptionId (sub_id s2)))
    (users (applyEvent logger mongoose env2 e2
              (applyEvent logger mongoose env1 e1 w)))
  = find (selected mongoose (bySubscriptionId (sub_id s2)))
      (users (applyEvent logger mongoose env2 e2 w))
  /\ find (selected mongoose (bySubscriptionId (sub_id s2)))
       (users (applyEvent logger mongoose env2 e2 w))
     = Some {| userId := userId user;
               role := role user;
               subscription :=
                 Some {| planId := Some (price_id item);
                         status := Some (sub_status s2);
                         stripeCustomerId := stripeCustomerId sb;
                         stripeSubscriptionId := stripeSubscriptionId sb;
                         currentPeriodStart := currentPeriodStart sb;
                         currentPeriodEnd :=
                           Some (newDate (sub_current_period_end s2 * 1000));
                         cancelAtPeriodEnd := sub_cancel_at_period_end s2 |} |}.
Proof.
  intros Hid Htype Hobj Hfind Hsb Hitems Hroles Hsave.
  assert (Halone :
            find (selected mongoose (bySubscriptionId (sub_id s2)))
              (users (applyEvent logger mongoose env2 e2 w))
            = Some (overwritten s2 item user sb)).
  { rewrite (subscription_event_writes logger mongoose env2 e2 s2 item rest
               user sb w Htype Hobj Hfind Hsb Hitems Hroles Hsave).
    apply (find_selected_replaceUser mongoose _ (overwritten s2 item user sb)
             user (users w) Hfind).
    reflexivity. }
  split; [|exact Halone]. rewrite Halone.
  destruct (selected_after_event logger mongoose env1 e1 (sub_id s2) user sb w
              Hid Hfind Hsb) as [Hsame|(s1 & item1 & Hover)].
  - rewrite (subscription_event_writes logger mongoose env2 e2 s2 item rest
               user sb _ Htype Hobj Hsame Hsb Hitems Hroles Hsave).
    apply (find_selected_replaceUser mongoose _ (overwritten s2 item user sb)
             user _ Hsame).
    reflexivity.
  - assert (Hsave' :
              save_rejects env2
                (overwritten s2 item (overwritten s1 item1 user sb)
                   {| planId := Some (price_id item1);
                      status := Some (sub_status s1);
                      stripeCustomerId := stripeCustomerId sb;
                      stripeSubscriptionId := stripeSubscriptionId sb;
                      currentPeriodStart := currentPeriodStart sb;
                      currentPeriodEnd :=
                        Some (newDate (sub_current_period_end s1 * 1000));
                      cancelAtPeriodEnd := sub_cancel_at_period_end s1 |})
              = None) by exact Hsave.
    rewrite (subscription_event_writes logger mongoose env2 e2 s2 item rest
               (overwritten s1 item1 user sb) _ _ Htype Hobj Hover eq_refl
               Hitems Hroles Hsave').
    apply (find_selected_replaceUser mongoose _ _
             (overwritten s1 item1 user sb) _ Hover).
    reflexivity.
Qed.

Lemma last_delivered_event_wins_witness :
  find (selected strictQuery (bySubscriptionId "sub_1"))
    (users (applyEvent (utils_logger 1000) strictQuery (env_up e_old) e_old
              (applyEvent (utils_logger 1000) strictQuery (env_up e_new) e_new
                 (world_of [alice]))))
  = find (selected strictQuery (bySubscriptionId "sub_1"))
      (users (applyEvent (utils_logger 1000) strictQuery (env_up e_old) e_old
                (world_of [alice])))
  /\ find (selected strictQuery (bySubscriptionId "sub_1"))
       (users (applyEvent (utils_logger 1000) strictQuery (env_up e_old) e_old
                 (world_of [alice])))
     = Some {| userId := "u1"; role := "user";
               subscription :=
                 Some {| planId := Some "pro"; status := Some "incomplete";
                         stripeCustomerId := Some "cus_1";
                         stripeSubscriptionId := None;
                         currentPeriodStart := None;
                         currentPeriodEnd := Some (ValidDate 1000);
                         cancelAtPeriodEnd := false |} |}.
Proof.
  apply (last_delivered_event_wins (utils_logger 1000) strictQuery
           (env_up e_new) (env_up e_old) e_new e_old
           (provider_sub "incomplete" 1 false)
           {| item_id := "si_1"; price_id := "pro" |} [] alice
           {| planId := Some "basic"; status := Some "canceled";
              stripeCustomerId := Some "cus_1";
              stripeSubscriptionId := None;
              currentPeriodStart := None;
              currentPeriodEnd := Some (ValidDate 1000);
              cancelAtPeriodEnd := false |}
           (world_of [alice]));
    try reflexivity.
  right. reflexivity.
Defined.

(** ** The webhook endpoint *)

(** With a logger whose [error] method returns, a delivery whose signature
    fails verification is answered with the 400 rejection, and nothing is
    written. *)
Lemma rejected_delivery_with_returning_logger (logger : Logger)
  (mongoose : Mongoose) (env : Env) (req : WebhookRequest)
  (signature : string) (e : Error) (w : World) :
  (forall args, error logger args = Returned tt) ->
  truthyString (stripe_signature req) = Some signature ->
  webhooks_constructEvent env signature (body req) (webhookSecret env)
  = Thrown e ->
  handleStripeWebhook logger mongoose env req w
  = (Thrown (ApiError 400 ("Webhook error: " ++ err_message e)), w).
Proof.
  intros Hlog Hsig Hbad. unfold_program. rewrite Hsig; simpl.
  rewrite Hbad; simpl. repeat (rewrite Hlog; simpl). reflexivity.
Qed.

(** A delivery without signature header is rejected with 400 before anything
    else happens. *)
Lemma missing_signature_rejected (logger : Logger) (mongoose : Mongoose)
  (env : Env) (req : WebhookRequest) (w : World) :
  truthyString (stripe_signature req) = None ->
  handleStripeWebhook logger mongoose env req w
  = (Thrown (ApiError 400 "Missing Stripe signature"), w).
Proof. intros Hsig. unfold_program. rewrite Hsig. reflexivity. Qed.

(** A delivery that is verified and whose handler returns is answered
    by 200. *)
Lemma processed_delivery_is_acknowledged (logger : Logger)
  (mongoose : Mongoose) (env : Env) (req : WebhookRequest)
  (signature : string) (e : StripeEvent) (w w' : World) :
  truthyString (stripe_signature req) = Some signature ->
  webhooks_constructEvent env signature (body req) (webhookSecret env)
  = Returned e ->
  dispatchEvent logger mongoose env e w = (Returned tt, w') ->
  handleStripeWebhook logger mongoose env req w = (Returned acknowledged, w').
Proof.
  intros Hsig Hok Hrun. unfold handleStripeWebhook. rewrite Hsig.
  unfold tryCatch, bind, stripe_constructEventFromPayload, tryCatch,
    liftOutcome.
  rewrite Hok, Hrun. reflexivity.
Qed.

(** A delivery that is verified and whose handler ends in the error of the
    repository's logger ends in that error. *)
Lemma overflowing_delivery (frames : nat) (mongoose : Mongoose) (env : Env)
  (req : WebhookRequest) (signature : string) (e : StripeEvent)
  (w w' : World) :
  truthyString (stripe_signature req) = Some signature ->
  webhooks_constructEvent env signature (body req) (webhookSecret env)
  = Returned e ->
  dispatchEvent (utils_logger frames) mongoose env e w
  = (Thrown stackOverflow, w') ->
  handleStripeWebhook (utils_logger frames) mongoose env req w
  = (Thrown stackOverflow, w').
Proof.
  intros Hsig Hok Hrun. unfold handleStripeWebhook. rewrite Hsig.
  unfold tryCatch, bind, stripe_constructEventFromPayload, tryCatch,
    liftOutcome, logger_error_call.
  rewrite Hok, Hrun. simpl. rewrite logger_error_throws. reflexivity.
Qed.

(** C4, on the code. The delivery [forged] carries the signature header
    [invalid_signature] and verification throws.  Both [catch] blocks on the
    way call [logger.error], which never returns: the endpoint ends in
    [RangeError], not in the 400 rejection.  Nothing is written. *)
Theorem invalid_signature_throws_RangeError (frames : nat)
  (mongoose : Mongoose) (w : World) :
  handleStripeWebhook (utils_logger frames) mongoose env_down forged w
  = (Thrown stackOverflow, w)
  /\ Thrown (A := Response) stackOverflow
     <> Thrown (ApiError 400
          ("Webhook error: " ++
           "No signatures found matching the expected signature for payload")).
Proof.
  split; [|discriminate].
  unfold_program. simpl. repeat (rewrite logger_error_throws; simpl).
  reflexivity.
Qed.

(** ** Event types *)

Section Overflow.

Context (frames : nat) (mongoose : Mongoose) (env : Env).

Ltac overflow_cases :=
  unfold_program; simpl;
  repeat (first [rewrite logger_error_throws | destruct_innermost]; simpl).

(** With the logger of the repository, [handleCheckoutSessionCompleted]
    ends in [RangeError] on every session, and writes nothing. *)
Lemma handleCheckoutSessionCompleted_overflows (o : EventObject) (w : World) :
  outcome (handleCheckoutSessionCompleted (utils_logger frames) mongoose env o)
    w
  = Thrown stackOverflow.
Proof. overflow_cases; reflexivity. Qed.

Lemma dispatch_unlisted_type (e : StripeEvent) (w : World) :
  includes (event_type e) billingEventTypes = false ->
  exists w',
    dispatchEvent (utils_logger frames) mongoose env e w
    = (Thrown stackOverflow, w')
    /\ users w' = users w /\ analytics w' = analytics w.
Proof.
  intros Htype. unfold billingEventTypes, includes in Htype. simpl in Htype.
  repeat (apply orb_false_iff in Htype; destruct Htype as [? Htype]).
  unfold dispatchEvent.
  destruct (event_type e =? "checkout.session.completed").
  - pose proof (handleCheckoutSessionCompleted_overflows (data_object e) w)
      as Hout.
    pose proof (users_handleCheckoutSessionCompleted (utils_logger frames)
                  mongoose env (data_object e) w) as [Hu Ha].
    unfold outcome, exec in *.
    destruct (handleCheckoutSessionCompleted (utils_logger frames) mongoose
                env (data_object e) w) as [o w'].
    simpl in *. subst o. exists w'. auto.
  - repeat match goal with
           | H : (_ =? _) = false |- _ => rewrite H; clear H
           end.
    simpl. exists w. unfold logger_error_call, liftOutcome. simpl.
    rewrite logger_error_throws. auto.
Qed.

End Overflow.

(** C5, on the code. For every verified event whose type is none of the
    five that the claim lists, the delivery ends in [RangeError]: the
    endpoint does not return success.  No user document is changed and no
    analytics event is recorded. *)
Theorem unhandled_event_throws_RangeError (frames : nat) (mongoose : Mongoose)
  (env : Env) (req : WebhookRequest) (signature : string) (e : StripeEvent)
  (w : World) :
  truthyString (stripe_signature req) = Some signature ->
  webhooks_constructEvent env signature (body req) (webhookSecret env)
  = Returned e ->
  includes (event_type e) billingEventTypes = false ->
  outcome (handleStripeWebhook (utils_logger frames) mongoose env req) w
  = Thrown stackOverflow
  /\ users (deliver (utils_logger frames) mongoose env req w) = users w
  /\ analytics (deliver (utils_logger frames) mongoose env req w)
     = analytics w.
Proof.
  intros Hsig Hok Htype.
  destruct (dispatch_unlisted_type frames mongoose env e w Htype)
    as (w' & Hrun & Hu & Ha).
  unfold outcome, deliver, exec.
  rewrite (overflowing_delivery frames mongoose env req signature e w w'
             Hsig Hok Hrun).
  simpl. auto.
Qed.

Lemma unhandled_event_throws_RangeError_witness :
  includes (event_type customer_created_event) billingEventTypes = false
  /\ outcome (handleStripeWebhook (utils_logger 1000) strictQuery
                (env_up customer_created_event) signed) (world_of [alice])
     = Thrown stackOverflow
  /\ users (deliver (utils_logger 1000) strictQuery
              (env_up customer_created_event) signed (world_of [alice]))
     = [alice]
  /\ analytics (deliver (utils_logger 1000) strictQuery
                  (env_up customer_created_event) signed (world_of [alice]))
     = [].
Proof.
  split; [reflexivity|].
  apply (unhandled_event_throws_RangeError 1000 strictQuery
           (env_up customer_created_event) signed "t=1,v1=5257a869"
           customer_created_event (world_of [alice]));
    reflexivity.
Defined.

(** ** The invariant *)

(** A document as the schema creates it has the status active and no
    subscription identifier. *)
Lemma defaultSubscription_violates_invariant :
  ~ recordInvariant defaultSubscription.
Proof. intros [H _]. apply H; reflexivity. Qed.

(** C6, on the code. No operation assigns [stripeSubscriptionId].  A
    subscription created/updated event with the status trialing, applied to
    a record without subscription identifier, leaves a record that is
    trialing and has no subscription identifier: the invariant does not hold
    after the delivery. *)
Theorem subscription_event_breaks_invariant (logger : Logger)
  (mongoose : Mongoose) (env : Env) (e : StripeEvent) (s : StripeSubscription)
  (item : SubscriptionItem) (rest : list SubscriptionItem) (user : User)
  (sb : Subscription) (w : World) :
  isSubscriptionChange e ->
  data_object e = ObjSubscription s ->
  find (selected mongoose (bySubscriptionId (sub_id s))) (users w)
  = Some user ->
  subscription user = Some sb ->
  stripeSubscriptionId sb = None ->
  sub_items_data s = item :: rest ->
  sub_status s = "trialing" ->
  save_rejects env (overwritten s item user sb) = None ->
  ~ storeInvariant (users (applyEvent logger mongoose env e w)).
Proof.
  intros Htype Hobj Hfind Hsb Hid Hitems Hstatus Hsave Hinv.
  assert (Hroles : touchesRoles (sub_status s) = false)
    by (rewrite Hstatus; reflexivity).
  pose proof (subscription_event_writes logger mongoose env e s item rest user
                sb w Htype Hobj Hfind Hsb Hitems Hroles Hsave) as Hwritten.
  pose proof (find_selected_replaceUser mongoose _
                (overwritten s item user sb) user (users w) Hfind eq_refl)
    as Hfound.
  rewrite <- Hwritten in Hfound. apply find_some in Hfound.
  destruct Hfound as [Hin _].
  unfold storeInvariant in Hinv. rewrite Forall_forall in Hinv.
  destruct (Hinv _ Hin) as [Hentitled _]. simpl in Hentitled.
  rewrite Hstatus in Hentitled. apply Hentitled; [reflexivity | exact Hid].
Qed.

Lemma subscription_event_breaks_invariant_witness :
  storeInvariant (users (world_of [alice]))
  /\ ~ storeInvariant
         (users (applyEvent (utils_logger 1000) strictQuery (env_up e_new)
                   e_new (world_of [alice]))).
Proof.
  split.
  - repeat constructor; simpl; intros; discriminate.
  - apply (subscription_event_breaks_invariant (utils_logger 1000) strictQuery
             (env_up e_new) e_new (provider_sub "trialing" 3 false)
             {| item_id := "si_1"; price_id := "pro" |} [] alice
             {| planId := Some "basic"; status := Some "canceled";
                stripeCustomerId := Some "cus_1";
                stripeSubscriptionId := None;
                currentPeriodStart := None;
                currentPeriodEnd := Some (ValidDate 1000);
                cancelAtPeriodEnd := false |}
             (world_of [alice]));
      try reflexivity.
    right. reflexivity.
Defined.

(** ** User-initiated operations *)

(** C7, on the code. The guard of [cancelSubscription] reads
    [user.subscription.subscriptionId], which no document has: for every
    user, with whatever subscription, both kinds of cancellation end in
    400 'No active subscription found'.  No request is sent to the provider
    and the record is unchanged. *)
Theorem cancelSubscription_rejects_every_user (logger : Logger) (env : Env)
  (uid : string) (cancelImmediately : bool) (user : User) (w : World) :
  find (byId uid) (users w) = Some user ->
  cancelSubscription logger env uid cancelImmediately w
  = (Thrown (ApiError 400 "No active subscription found"), w).
Proof.
  intros Hfind. unfold_program. rewrite Hfind. simpl.
  destruct (subscription user); reflexivity.
Qed.

Lemma cancelSubscription_rejects_every_user_witness :
  option_map stripeSubscriptionId (subscription bob) = Some (Some "sub_2")
  /\ cancelSubscription (utils_logger 1000) (env_up e_new) "u2" false
       (world_of [alice; bob])
     = (Thrown (ApiError 400 "No active subscription found"),
        world_of [alice; bob])
  /\ cancelSubscription (utils_logger 1000) (env_up e_new) "u2" true
       (world_of [alice; bob])
     = (Thrown (ApiError 400 "No active subscription found"),
        world_of [alice; bob]).
Proof.
  split; [reflexivity|].
  split;
    apply (cancelSubscription_rejects_every_user (utils_logger 1000)
             (env_up e_new) "u2" _ bob (world_of [alice; bob]));
    reflexivity.
Defined.

(** ** Errors during reconciliation *)





(** C9. For every user on record, with whatever subscription, and whatever
    the provider would answer: [getUserSubscription] answers 200 with
    [subscription: null] and [hasActiveSubscription: false] and leaves the
    world as it is.  The guard reads [user.stripeCustomerId] and
    [user.subscription.subscriptionId], which no document has, so the
    provider is not asked. *)
Theorem getUserSubscription_answers_empty (logger : Logger) (env : Env)
  (uid : string) (user : User) (w : World) :
  find (byId uid) (users w) = Some user ->
  getUserSubscription logger env uid w
  = (Returned {| statusCode := 200; json := SubscriptionInfo None false |},
     w).
Proof.
  intros Hfind. unfold_program. rewrite Hfind. reflexivity.
Qed.

Lemma getUserSubscription_answers_empty_witness :
  subscriptions_retrieve env_down "sub_2"
  = Thrown (StripeError "connection refused")
  /\ getUserSubscription (utils_logger 1000) env_down "u2"
       (world_of [alice; bob])
     = (Returned {| statusCode := 200; json := SubscriptionInfo None false |},
        world_of [alice; bob]).
Proof.
  split; [reflexivity|].
  apply (getUserSubscription_answers_empty (utils_logger 1000) env_down "u2"
           bob (world_of [alice; bob])).
  reflexivity.
Defined.

(** The module config/stripe.js exports no [subscriptions]. *)
Lemma subscriptions_not_exported : exported "subscriptions" = false.
Proof. reflexivity. Qed.



(** * Further properties *)

(** ** The logger *)

(** X1. Whatever the depth of the call stack and the arguments,
    [logger.error] and [logger.warn] never return: both end in
    [RangeError]. *)
Theorem logger_error_and_warn_never_return (frames : nat)
  (args : list LogArg) :
  logger_error frames args = Thrown stackOverflow
  /\ logger_warn frames args = Thrown stackOverflow.
Proof.
  split; [apply logger_error_throws|].
  induction frames as [|frames IH]; simpl; [reflexivity | exact IH].
Qed.

(** ** Localized features of a plan *)

Lemma localizeFeature_empty (feature : Feature) :
  localizeFeature {| localized_name := None; localized_description := None |}
    feature
  = feature.
Proof. destruct feature. reflexivity. Qed.

Lemma localizedAt_beyond (l : list LocalizedFeature) (index : nat) :
  length l <= index ->
  localizedAt l index
  = {| localized_name := None; localized_description := None |}.
Proof.
  intros H. unfold localizedAt.
  apply nth_error_None in H. rewrite H. reflexivity.
Qed.

Lemma mapFeatures_beyond (l : list LocalizedFeature) (fs : list Feature) :
  forall index, length l <= index -> mapFeatures l index fs = fs.
Proof.
  induction fs as [|f fs IH]; intros index H; simpl; [reflexivity|].
  rewrite localizedAt_beyond, localizeFeature_empty by exact H.
  rewrite IH by lia. reflexivity.
Qed.

Lemma mapFeatures_skipn (l : list LocalizedFeature) (n : nat) :
  forall (fs : list Feature) (index : nat),
    skipn n (mapFeatures l index fs) = mapFeatures l (n + index) (skipn n fs).
Proof.
  induction n as [|n IH]; intros fs index; [reflexivity|].
  destruct fs as [|f fs]; simpl; [reflexivity|].
  rewrite IH. f_equal. lia.
Qed.

Lemma mapFeatures_shape (l : list LocalizedFeature) (fs : list Feature) :
  forall index,
    length (mapFeatures l index fs) = length fs
    /\ map feature_enabled (mapFeatures l index fs) = map feature_enabled fs
    /\ map feature_limit (mapFeatures l index fs) = map feature_limit fs.
Proof.
  induction fs as [|f fs IH]; intros index; simpl.
  - repeat split; auto.
  - destruct (IH (S index)) as (Hlen & Hen & Hlim).
    rewrite Hlen, Hen, Hlim. repeat split; auto.
Qed.

Lemma mapFeatures_named (l : list LocalizedFeature) (fs : list Feature) :
  forall index, named fs -> named (mapFeatures l index fs).
Proof.
  unfold named.
  induction fs as [|f fs IH]; intros index H; simpl; [constructor|].
  inversion H as [|? ? Hf Hfs]; subst.
  constructor; [|auto].
  simpl. destruct (localized_name (localizedAt l index)) as [s|]; simpl;
    [|exact Hf].
  destruct (s =? "") eqn:E; [exact Hf|].
  apply String.eqb_neq. exact E.
Qed.

(** X2. In every language, [getFeaturesInLanguage] answers one feature per
    feature of the plan, in the same order, with the same [enabled] flag and
    the same [limit]. *)
Theorem getFeaturesInLanguage_keeps_shape (this : Plan) (lang : option string) :
  length (getFeaturesInLanguage this lang) = length (features this)
  /\ map feature_enabled (getFeaturesInLanguage this lang)
     = map feature_enabled (features this)
  /\ map feature_limit (getFeaturesInLanguage this lang)
     = map feature_limit (features this).
Proof.
  unfold getFeaturesInLanguage.
  destruct (translations this) as [ts|]; [|repeat split; auto].
  destruct (translationFor _ ts) as [t|]; [|repeat split; auto].
  apply mapFeatures_shape.
Qed.

(** X3. When every feature of the plan has a name, every answered feature
    has one, in every language: an empty or missing translated name never
    replaces the stored name. *)
Theorem getFeaturesInLanguage_keeps_names (this : Plan) (lang : option string) :
  named (features this) -> named (getFeaturesInLanguage this lang).
Proof.
  intros H. unfold getFeaturesInLanguage.
  destruct (translations this) as [ts|]; [|exact H].
  destruct (translationFor _ ts) as [t|]; [|exact H].
  apply mapFeatures_named. exact H.
Qed.

Lemma getFeaturesInLanguage_keeps_names_witness :
  map feature_name (getFeaturesInLanguage plan_pro (Some "fr"))
  = ["Articles (fr)"; "Translations"; "Support"]
  /\ named (getFeaturesInLanguage plan_pro (Some "fr")).
Proof.
  split; [reflexivity|].
  apply (getFeaturesInLanguage_keeps_names plan_pro (Some "fr")).
  repeat constructor; discriminate.
Defined.

(** X4. The features beyond the last translated entry are answered as they
    are stored; so a language without translation, or with an empty list of
    translated features, answers the stored features. *)
Theorem getFeaturesInLanguage_untranslated_tail (this : Plan) (lang : string) :
  skipn (length (localizedFeaturesOf this lang))
    (getFeaturesInLanguage this (Some lang))
  = skipn (length (localizedFeaturesOf this lang)) (features this).
Proof.
  unfold getFeaturesInLanguage, localizedFeaturesOf.
  destruct (translations this) as [ts|]; [|reflexivity].
  destruct (translationFor lang ts) as [t|]; [|reflexivity].
  rewrite mapFeatures_skipn. apply mapFeatures_beyond. lia.
Qed.

(** ** Plans and checkout *)

(** [config.stripe] has the keys [secretKey], [webhookSecret] and [plans]
    only. *)
Lemma config_plan_ids_undefined (envVars : EnvVars) :
  config_monthlyPlanId envVars = Undefined
  /\ config_yearlyPlanId envVars = Undefined.
Proof. split; reflexivity. Qed.

Lemma createCustomer_not_exported :
  exported "createCustomer" = false /\ exported "customers" = false.
Proof. split; reflexivity. Qed.

(** X5. Whatever the environment variables, both plans that
    [getSubscriptionPlans] offers have the identifier [undefined], and
    [createCheckoutSession] rejects every request that names a plan with
    400 'Invalid plan selected', before it reads or writes anything. *)
Theorem createCheckoutSession_rejects_every_named_plan (logger : Logger)
  (env : Env) (envVars : EnvVars) (sdk : Sdk) (uid plan : string)
  (successUrl cancelUrl : option string) (w : World) :
  map offer_id (getSubscriptionPlans envVars) = [Undefined; Undefined]
  /\ createCheckoutSession logger env envVars sdk uid
       {| body_planId := Some plan; body_successUrl := successUrl;
          body_cancelUrl := cancelUrl |} w
     = (Thrown (ApiError 400 "Invalid plan selected"), w).
Proof. split; reflexivity. Qed.

(** X6. [createCheckoutSession] never writes a user document and never
    sends a subscription request: a user without customer identifier does
    not get one. *)
Theorem createCheckoutSession_never_writes_users (logger : Logger) (env : Env)
  (envVars : EnvVars) (sdk : Sdk) (uid : string) (body : CheckoutBody)
  (w : World) :
  users (exec (createCheckoutSession logger env envVars sdk uid body) w)
  = users w
  /\ stripeCalls (exec (createCheckoutSession logger env envVars sdk uid body) w)
     = stripeCalls w.
Proof. all_cases; split; reflexivity. Qed.

(** X7. For a request that passes the plan check, from a user who has no
    active subscription, [createCheckoutSession] throws [TypeError]:
    [user.stripeCustomerId] is [undefined] on every document, and
    [stripe.createCustomer] is no function of the module.  The world is
    left as it is. *)
Theorem createCheckoutSession_without_customer_throws (logger : Logger)
  (env : Env) (envVars : EnvVars) (sdk : Sdk) (uid : string)
  (body : CheckoutBody) (user : User) (w : World) :
  body_planId body = None ->
  find (byId uid) (users w) = Some user ->
  match subscription user with
  | Some sb => strictEq (status sb) (Some "active")
  | None => false
  end = false ->
  createCheckoutSession logger env envVars sdk uid body w
  = (Thrown (TypeError "stripe.createCustomer is not a function"), w).
Proof.
  intros Hplan Hfind Hactive.
  unfold createCheckoutSession. rewrite Hplan. unfold_program. simpl.
  rewrite Hfind; simpl. rewrite Hactive. reflexivity.
Qed.

Lemma createCheckoutSession_without_customer_throws_witness :
  createCheckoutSession (utils_logger 1000) (env_up e_new) vars_0 sdk_up "u1"
    {| body_planId := None; body_successUrl := None; body_cancelUrl := None |}
    (world_of [alice])
  = (Thrown (TypeError "stripe.createCustomer is not a function"),
     world_of [alice]).
Proof.
  apply (createCheckoutSession_without_customer_throws (utils_logger 1000)
           (env_up e_new) vars_0 sdk_up "u1"
           {| body_planId := None; body_successUrl := None;
              body_cancelUrl := None |} alice (world_of [alice]));
    reflexivity.
Defined.

(** X8. [createCheckoutSession] never reaches the provider and never
    answers: on every input it ends in one of four errors and leaves the
    world as it is. *)
Theorem createCheckoutSession_never_answers (logger : Logger) (env : Env)
  (envVars : EnvVars) (sdk : Sdk) (uid : string) (body : CheckoutBody)
  (w : World) :
  createCheckoutSession logger env envVars sdk uid body w
  = (Thrown (ApiError 400 "Invalid plan selected"), w)
  \/ createCheckoutSession logger env envVars sdk uid body w
     = (Thrown (ApiError 404 "User not found"), w)
  \/ createCheckoutSession logger env envVars sdk uid body w
     = (Thrown (ApiError 400 "You already have an active subscription"), w)
  \/ createCheckoutSession logger env envVars sdk uid body w
     = (Thrown (TypeError "stripe.createCustomer is not a function"), w).
Proof. all_cases; auto. Qed.

(** ** Discount, portal and plan change *)

(** X9. [applyDiscount] never answers: on every input it throws 400
    without coupon, 404 without user and 400 'No customer ID found' for
    every user on record, since [user.stripeCustomerId] is [undefined] on
    every document.  It leaves the world as it is: no 'discount_applied'
    event is recorded. *)
Theorem applyDiscount_never_succeeds (env : Env) (sdk : Sdk) (uid : string)
  (couponId : option string) (w : World) :
  applyDiscount env sdk uid couponId w
  = (Thrown (ApiError 400 "Coupon ID is required"), w)
  \/ applyDiscount env sdk uid couponId w
     = (Thrown (ApiError 404 "User not found"), w)
  \/ applyDiscount env sdk uid couponId w
     = (Thrown (ApiError 400 "No customer ID found"), w).
Proof. all_cases; auto. Qed.

(** X10. [createPortalSession] never answers 200: [user.stripeCustomerId]
    is [undefined] on every document, so on every input the operation
    throws 404 'User not found or no Stripe customer associated'; the
    provider is not asked and the world is left as it is. *)
Theorem createPortalSession_never_succeeds (logger : Logger)
  (envVars : EnvVars) (sdk : Sdk) (uid : string) (returnUrl : option string)
  (w : World) :
  createPortalSession logger envVars sdk uid returnUrl w
  = (Thrown (ApiError 404 "User not found or no Stripe customer associated"),
     w).
Proof. all_cases; reflexivity. Qed.

(** X20. [updateSubscription] of the controller never changes a plan:
    [config.stripe] has no [monthlyPlanId] and no [yearlyPlanId], so every
    request ends in 400, 'New plan ID is required' without plan and
    'Invalid plan selected' with one.  The world is left as it is. *)
Theorem updateSubscription_rejects_every_plan (logger : Logger) (env : Env)
  (envVars : EnvVars) (uid : string) (newPlanId : option string) (w : World) :
  updateSubscription logger env envVars uid newPlanId w
  = (Thrown (ApiError 400 "New plan ID is required"), w)
  \/ updateSubscription logger env envVars uid newPlanId w
     = (Thrown (ApiError 400 "Invalid plan selected"), w).
Proof.
  unfold updateSubscription.
  destruct (truthyString newPlanId); [right | left]; reflexivity.
Qed.

(** X18. No user-initiated subscription operation sends a request to the
    provider, writes a user document or records an analytics event:
    subscription query, cancellation, reactivation and plan change leave the
    world as it is, whatever the logger and the collaborators do. *)
Theorem user_operations_leave_world (logger : Logger) (env : Env)
  (envVars : EnvVars) (uid : string) (cancelImmediately : bool)
  (newPlanId : option string) (w : World) :
  exec (getUserSubscription logger env uid) w = w
  /\ exec (cancelSubscription logger env uid cancelImmediately) w = w
  /\ exec (reactivateSubscription env uid) w = w
  /\ exec (updateSubscription logger env envVars uid newPlanId) w = w.
Proof.
  repeat split.
  - all_cases; reflexivity.
  - all_cases; reflexivity.
  - all_cases; reflexivity.
  - unfold exec, updateSubscription.
    destruct (truthyString newPlanId); reflexivity.
Qed.

(** ** Events that write nothing *)

(** X11. A subscription created/updated event with the status active,
    canceled, unpaid or past_due changes nothing: for these statuses the
    handler calls a method of [user.roles], which is [undefined] on every
    document, so the handler never gets as far as [save].  No premium role
    is granted or withdrawn. *)
Theorem role_statuses_write_nothing (logger : Logger) (mongoose : Mongoose)
  (env : Env) (e : StripeEvent) (s : StripeSubscription) (w : World) :
  isSubscriptionChange e ->
  data_object e = ObjSubscription s ->
  touchesRoles (sub_status s) = true ->
  applyEvent logger mongoose env e w = w.
Proof.
  intros Htype Hobj Hroles. unfold applyEvent, dispatchEvent.
  assert (Hnot : (event_type e =? "checkout.session.completed") = false)
    by (destruct Htype as [H|H]; rewrite H; reflexivity).
  rewrite Hnot, (isSubscriptionChange_dispatch e Htype), Hobj.
  unfold touchesRoles in Hroles.
  unfold_program. simpl.
  destruct (find _ (users w)) as [user|]; simpl; [|reflexivity].
  destruct (subscription user) as [sb|]; simpl; [|finish_effect].
  destruct (sub_items_data s) as [|item rest]; simpl; [finish_effect|].
  destruct (sub_status s =? "active"); simpl; [finish_effect|].
  simpl in Hroles. unfold includes in Hroles. simpl in Hroles.
  rewrite Hroles. simpl. finish_effect.
Qed.

Lemma role_statuses_write_nothing_witness :
  applyEvent (utils_logger 1000) strictQuery
    (env_up (update_event 300 "active" 5)) (update_event 300 "active" 5)
    (world_of [alice])
  = world_of [alice].
Proof.
  apply (role_statuses_write_nothing (utils_logger 1000) strictQuery
           (env_up (update_event 300 "active" 5))
           (update_event 300 "active" 5) (provider_sub "active" 5 false)
           (world_of [alice]));
    try reflexivity.
  right. reflexivity.
Defined.

(** X12. A subscription deleted event changes nothing, whatever the logger,
    the query layer and the collaborators do: the handler calls
    [user.roles.filter] before [save], and [user.roles] is [undefined] on
    every document.  The record keeps its status. *)
Theorem deleted_event_writes_nothing (logger : Logger) (mongoose : Mongoose)
  (env : Env) (e : StripeEvent) (w : World) :
  event_type e = "customer.subscription.deleted" ->
  applyEvent logger mongoose env e w = w.
Proof.
  intros Htype. unfold applyEvent, dispatchEvent. rewrite Htype. simpl.
  apply users_handleSubscriptionDeleted.
Qed.

Lemma deleted_event_writes_nothing_witness :
  applyEvent (utils_logger 1000) strictQuery (env_up e_new)
    (subscription_event "customer.subscription.deleted" 400
       (provider_sub "canceled" 5 false))
    (world_of [bob])
  = world_of [bob].
Proof.
  apply (deleted_event_writes_nothing (utils_logger 1000) strictQuery
           (env_up e_new)
           (subscription_event "customer.subscription.deleted" 400
              (provider_sub "canceled" 5 false))
           (world_of [bob])).
  reflexivity.
Defined.

(** X13. A checkout completed event changes no user document and records
    no analytics event: the handler calls [user.roles.includes] before
    [save].  All it may do is to ask the provider for the subscription of
    the session. *)
Theorem checkout_event_writes_nothing (logger : Logger) (mongoose : Mongoose)
  (env : Env) (e : StripeEvent) (w : World) :
  event_type e = "checkout.session.completed" ->
  users (applyEvent logger mongoose env e w) = users w
  /\ analytics (applyEvent logger mongoose env e w) = analytics w
  /\ (stripeCalls (applyEvent logger mongoose env e w) = stripeCalls w
      \/ exists sid,
           obj_subscription (data_object e) = Some sid
           /\ stripeCalls (applyEvent logger mongoose env e w)
              = (stripeCalls w ++ [SubscriptionsRetrieve sid])%list).
Proof.
  intros Htype. unfold applyEvent, dispatchEvent. rewrite Htype. simpl.
  destruct (truthyString (obj_subscription (data_object e))) as [sid|] eqn:Hsid.
  - apply truthyString_Some in Hsid.
    all_cases; repeat split; eauto;
      match goal with
      | H : truthyString _ = Some ?x |- _ =>
          apply truthyString_Some in H; rewrite Hsid in H;
          injection H as <-; eauto
      end.
  - all_cases; try discriminate; repeat split; auto.
Qed.

Lemma checkout_event_writes_nothing_witness :
  users (applyEvent (utils_logger 1000) strictQuery (env_up e_new)
           checkout_event (world_of [alice]))
  = [alice]
  /\ analytics (applyEvent (utils_logger 1000) strictQuery (env_up e_new)
                  checkout_event (world_of [alice]))
     = []
  /\ stripeCalls (applyEvent (utils_logger 1000) strictQuery (env_up e_new)
                    checkout_event (world_of [alice]))
     = [SubscriptionsRetrieve "sub_new"].
Proof.
  destruct (checkout_event_writes_nothing (utils_logger 1000) strictQuery
              (env_up e_new) checkout_event (world_of [alice]) eq_refl)
    as (Hu & Ha & _).
  split; [exact Hu|]. split; [exact Ha|]. reflexivity.
Defined.

(** X14. A delivery of an invoice payment succeeded/failed event never
    changes a user document and never contacts the provider: all it may do
    is to record one analytics event. *)
Theorem invoice_events_only_track (logger : Logger) (mongoose : Mongoose)
  (env : Env) (e : StripeEvent) (w : World) :
  event_type e = "invoice.payment_succeeded"
  \/ event_type e = "invoice.payment_failed" ->
  users (applyEvent logger mongoose env e w) = users w
  /\ stripeCalls (applyEvent logger mongoose env e w) = stripeCalls w
  /\ (analytics (applyEvent logger mongoose env e w) = analytics w
      \/ exists a,
           analytics (applyEvent logger mongoose env e w)
           = (analytics w ++ [a])%list
           /\ (event a = "subscription_payment_succeeded"
               \/ event a = "subscription_payment_failed")).
Proof.
  intros Htype. unfold applyEvent, dispatchEvent.
  destruct Htype as [Htype|Htype]; rewrite Htype; simpl;
    all_cases; repeat split; eauto 8.
Qed.

Lemma invoice_events_only_track_witness :
  users (applyEvent (utils_logger 1000) strictQuery (env_up e_new)
           invoice_event (world_of [alice]))
  = [alice]
  /\ analytics (applyEvent (utils_logger 1000) strictQuery (env_up e_new)
                  invoice_event (world_of [alice]))
     = [ {| event := "subscription_payment_failed"; data_userId := "u1" |} ].
Proof.
  split; [|reflexivity].
  apply (invoice_events_only_track (utils_logger 1000) strictQuery
           (env_up e_new) invoice_event (world_of [alice])).
  right. reflexivity.
Defined.

(** X15. A webhook delivery never asks the provider to change anything: it
    sends no request at all, or a single retrieval of a subscription. *)
Theorem webhook_only_retrieves (logger : Logger) (mongoose : Mongoose)
  (env : Env) (req : WebhookRequest) (w : World) :
  stripeCalls (deliver logger mongoose env req w) = stripeCalls w
  \/ exists sid,
       stripeCalls (deliver logger mongoose env req w)
       = (stripeCalls w ++ [SubscriptionsRetrieve sid])%list.
Proof.
  unfold deliver. all_cases; eauto.
Qed.

(** ** Errors write nothing *)

(** X16. Whatever the logger, the query layer and the collaborators do, an
    operation of the controller (webhook delivery, subscription query,
    cancellation, reactivation, plan change) that ends in an error has
    written no user document and recorded no analytics event. *)
Theorem failed_operation_writes_nothing (logger : Logger)
  (mongoose : Mongoose) (env : Env) (envVars : EnvVars) (op : Operation)
  (w : World) (err : Error) :
  outcome (perform logger mongoose env envVars op) w = Thrown err ->
  users (exec (perform logger mongoose env envVars op) w) = users w
  /\ analytics (exec (perform logger mongoose env envVars op) w)
     = analytics w.
Proof.
  destruct op; all_cases; intros; try discriminate; split; reflexivity.
Qed.

Lemma failed_operation_writes_nothing_witness :
  outcome (perform (utils_logger 1000) strictQuery (env_readonly e_new) vars_0
             (OpWebhook signed)) (world_of [alice])
  = Thrown stackOverflow
  /\ users (exec (perform (utils_logger 1000) strictQuery (env_readonly e_new)
                    vars_0 (OpWebhook signed)) (world_of [alice]))
     = [alice]
  /\ analytics (exec (perform (utils_logger 1000) strictQuery
                        (env_readonly e_new) vars_0 (OpWebhook signed))
                  (world_of [alice]))
     = [].
Proof.
  split; [reflexivity|].
  apply (failed_operation_writes_nothing (utils_logger 1000) strictQuery
           (env_readonly e_new) vars_0 (OpWebhook signed) (world_of [alice])
           stackOverflow).
  reflexivity.
Defined.

(** ** config/stripe.js *)

(** X17. [stripe.cancelSubscription(id, atPeriodEnd)] sends exactly one
    request: an update with [cancel_at_period_end: true] when [atPeriodEnd]
    holds, a cancellation otherwise.  It returns what the provider returns;
    when the provider throws, it throws that error after [logger.error] has
    returned, or whatever [logger.error] throws.  The controller's
    [cancelSubscription] never calls it. *)
Theorem stripe_cancelSubscription_sends_one_request (logger : Logger)
  (env : Env) (sid : string) (atPeriodEnd : bool) (w : World) :
  exec (stripe_cancelSubscription logger env sid atPeriodEnd) w
  = {| users := users w; analytics := analytics w;
       stripeCalls :=
         stripeCalls w
         ++ [ if atPeriodEnd
              then SubscriptionsUpdate sid
                     {| cancel_at_period_end := Some true; items := None |}
              else SubscriptionsCancel sid ] |}
  /\ match (if atPeriodEnd
            then subscriptions_update env sid
                   {| cancel_at_period_end := Some true; items := None |}
            else subscriptions_cancel env sid) with
     | Returned answer =>
         outcome (stripe_cancelSubscription logger env sid atPeriodEnd) w
         = Returned answer
     | Thrown err =>
         match error logger
                 [LogText "Error canceling Stripe subscription:";
                  LogError err] with
         | Returned _ =>
             outcome (stripe_cancelSubscription logger env sid atPeriodEnd) w
             = Thrown err
         | Thrown err' =>
             outcome (stripe_cancelSubscription logger env sid atPeriodEnd) w
             = Thrown err'
         end
     end.
Proof.
  destruct atPeriodEnd; all_cases; split; reflexivity.
Qed.

(** X25. [stripe.updateSubscription] returns a subscription only if the
    provider has returned the current subscription with at least one item
    and has accepted the update; the two requests it has then sent are the
    retrieval and an update that puts the new price on the first item. *)
Theorem stripe_updateSubscription_success_is_sound (logger : Logger)
  (env : Env) (sid newPriceId : string) (w : World)
  (updated : StripeSubscription) :
  outcome (stripe_updateSubscription logger env sid newPriceId) w
  = Returned updated ->
  exists current item rest,
    subscriptions_retrieve env sid = Returned current
    /\ sub_items_data current = item :: rest
    /\ subscriptions_update env sid
         {| cancel_at_period_end := None;
            items := Some (item_id item, newPriceId) |}
       = Returned updated
    /\ stripeCalls (exec (stripe_updateSubscription logger env sid newPriceId) w)
       = (stripeCalls w
          ++ [ SubscriptionsRetrieve sid;
               SubscriptionsUpdate sid
                 {| cancel_at_period_end := None;
                    items := Some (item_id item, newPriceId) |} ])%list.
Proof.
  unfold_program.
  destruct (subscriptions_retrieve env sid) as [current|] eqn:Hret; simpl.
  2:{ case_logger; discriminate. }
  destruct (sub_items_data current) as [|item rest] eqn:Hitems; simpl.
  { case_logger; discriminate. }
  destruct (subscriptions_update env sid _) as [answer|] eqn:Hupd; simpl.
  - intros [= <-]. exists current, item, rest.
    repeat split; auto. rewrite <- app_assoc. reflexivity.
  - case_logger; discriminate.
Qed.

Lemma stripe_updateSubscription_success_is_sound_witness :
  exists current item rest,
    subscriptions_retrieve (env_up e_new) "sub_1" = Returned current
    /\ sub_items_data current = item :: rest
    /\ subscriptions_update (env_up e_new) "sub_1"
         {| cancel_at_period_end := None;
            items := Some (item_id item, "enterprise") |}
       = Returned (provider_sub "active" 2 false)
    /\ stripeCalls (exec (stripe_updateSubscription (utils_logger 1000)
                            (env_up e_new) "sub_1" "enterprise")
                      (world_of [alice]))
       = (stripeCalls (world_of [alice])
          ++ [ SubscriptionsRetrieve "sub_1";
               SubscriptionsUpdate "sub_1"
                 {| cancel_at_period_end := None;
                    items := Some (item_id item, "enterprise") |} ])%list.
Proof.
  apply (stripe_updateSubscription_success_is_sound (utils_logger 1000)
           (env_up e_new) "sub_1" "enterprise" (world_of [alice])
           (provider_sub "active" 2 false)).
  reflexivity.
Defined.

(** X26. With the logger of the repository, every wrapper of
    config/stripe.js returns what the SDK returns and turns every error of
    the SDK into [RangeError]: the [catch] block calls [logger.error]
    before it rethrows, so the error of the provider never reaches the
    caller. *)
Theorem provider_failure_becomes_RangeError (frames : nat) (env : Env)
  (sdk : Sdk) (sid payload signature customerId returnUrl : string)
  (atPeriodEnd : bool) (a b c d : Value) (w : World) :
  outcome (stripe_getSubscription (utils_logger frames) env sid) w
  = match subscriptions_retrieve env sid with
    | Returned answer => Returned answer
    | Thrown _ => Thrown stackOverflow
    end
  /\ outcome (stripe_cancelSubscription (utils_logger frames) env sid
                atPeriodEnd) w
     = match (if atPeriodEnd
              then subscriptions_update env sid
                     {| cancel_at_period_end := Some true; items := None |}
              else subscriptions_cancel env sid) with
       | Returned answer => Returned answer
       | Thrown _ => Thrown stackOverflow
       end
  /\ outcome (stripe_reactivateSubscription (utils_logger frames) env sid) w
     = match subscriptions_update env sid
               {| cancel_at_period_end := Some false; items := None |} with
       | Returned answer => Returned answer
       | Thrown _ => Thrown stackOverflow
       end
  /\ outcome (stripe_constructEventFromPayload (utils_logger frames) env
                payload signature) w
     = match webhooks_constructEvent env payload signature
               (webhookSecret env) with
       | Returned e => Returned e
       | Thrown _ => Thrown stackOverflow
       end
  /\ outcome (stripe_createCheckoutSession (utils_logger frames) sdk a b c d)
       w
     = match checkout_sessions_create sdk
               {| checkout_customer := a; checkout_price := b;
                  checkout_success_url := c; checkout_cancel_url := d |} with
       | Returned session => Returned session
       | Thrown _ => Thrown stackOverflow
       end
  /\ outcome (stripe_createCustomerPortalSession (utils_logger frames) sdk
                customerId returnUrl) w
     = match billingPortal_sessions_create sdk customerId returnUrl with
       | Returned url => Returned url
       | Thrown _ => Thrown stackOverflow
       end.
Proof.
  repeat split; unfold_program; simpl;
    repeat (first [rewrite logger_error_throws | destruct_innermost]; simpl);
    reflexivity.
Qed.

(** ** What the operations keep *)

Lemma same_id_same_user (l : list User) (x y : User) :
  NoDup (map userId l) -> In x l -> In y l -> userId x = userId y -> x = y.
Proof.
  induction l as [|z l IH]; simpl; intros Hnd Hx Hy Hid; [contradiction|].
  inversion Hnd as [|? ? Hnotin Hnd']; subst.
  destruct Hx as [<-|Hx], Hy as [<-|Hy]; auto.
  - exfalso. apply Hnotin. rewrite Hid. apply in_map. exact Hy.
  - exfalso. apply Hnotin. rewrite <- Hid. apply in_map. exact Hx.
Qed.

Lemma frameOf_replaceUser (u u0 : User) (l : list User) :
  NoDup (map userId l) -> In u0 l -> userId u = userId u0 ->
  frameOf u = frameOf u0 ->
  map frameOf (replaceUser u l) = map frameOf l.
Proof.
  intros Hnd Hin Hid Hframe. unfold replaceUser. rewrite map_map.
  apply map_ext_in. intros x Hx.
  destruct (userId x =? userId u) eqn:E; [|reflexivity].
  apply String.eqb_eq in E.
  rewrite (same_id_same_user l x u0 Hnd Hx Hin) by congruence.
  exact Hframe.
Qed.

Lemma frameOf_usersAfterEvent (mongoose : Mongoose) (env : Env)
  (e : StripeEvent) (l : list User) :
  NoDup (map userId l) ->
  map frameOf (usersAfterEvent mongoose env e l) = map frameOf l.
Proof.
  intros Hnd. unfold usersAfterEvent, documentToSave.
  destruct ((event_type e =? "customer.subscription.created")
            || (event_type e =? "customer.subscription.updated"));
    [|reflexivity].
  unfold updatedDocument.
  destruct (find (selected mongoose (bySubscriptionId (obj_id (data_object e))))
              l) as [user|] eqn:Hfind; [|reflexivity].
  destruct (subscription user) as [sb|] eqn:Hsb; [|reflexivity].
  destruct (data_object e) as [?|s|?]; try reflexivity.
  destruct (sub_items_data s) as [|item rest]; [reflexivity|].
  destruct (touchesRoles (sub_status s)); [reflexivity|].
  unfold written. destruct (save_rejects env _); [reflexivity|].
  apply find_some in Hfind. destruct Hfind as [Hin _].
  apply (frameOf_replaceUser _ user l Hnd Hin).
  - reflexivity.
  - rewrite applySubscriptionUpdate_overwritten. unfold frameOf, overwritten.
    simpl. rewrite Hsb. reflexivity.
Qed.

Lemma frameOf_perform (logger : Logger) (mongoose : Mongoose)
  (env : Env) (envVars : EnvVars) (op : Operation) (w : World) :
  NoDup (map userId (users w)) ->
  map frameOf (users (exec (perform logger mongoose env envVars op) w))
  = map frameOf (users w).
Proof.
  intros Hnd. destruct op as [req|uid|uid now|uid|uid newPlanId].
  - change (exec (perform logger mongoose env envVars (OpWebhook req)) w)
      with (deliver logger mongoose env req w).
    rewrite users_deliver. unfold usersAfterDelivery.
    destruct (truthyString (stripe_signature req)); [|reflexivity].
    destruct (webhooks_constructEvent env _ _ _); [|reflexivity].
    apply frameOf_usersAfterEvent. exact Hnd.
  - all_cases; reflexivity.
  - all_cases; reflexivity.
  - all_cases; reflexivity.
  - simpl. unfold exec, updateSubscription.
    destruct (truthyString newPlanId); reflexivity.
Qed.

Lemma userId_frameOf (l : list User) :
  map userId l = map (fun f => fst (fst f)) (map frameOf l).
Proof. rewrite map_map. reflexivity. Qed.

(** X19. In a state store whose user identifiers are distinct, no operation
    of the controller creates or deletes a user document, or changes the
    identifier, the role, the customer identifier, the subscription
    identifier or the period start of a document: the list of these is the
    same after every operation. *)
Theorem operations_keep_identities (logger : Logger) (mongoose : Mongoose)
  (env : Env) (envVars : EnvVars) (op : Operation) (w : World) :
  NoDup (map userId (users w)) ->
  map frameOf (users (exec (perform logger mongoose env envVars op) w))
  = map frameOf (users w).
Proof. apply frameOf_perform. Qed.

Lemma operations_keep_identities_witness :
  users (exec (perform (utils_logger 1000) strictQuery (env_up e_new) vars_0
                 (OpWebhook signed)) (world_of [alice; bob]))
  <> [alice; bob]
  /\ map frameOf
       (users (exec (perform (utils_logger 1000) strictQuery (env_up e_new)
                       vars_0 (OpWebhook signed)) (world_of [alice; bob])))
     = [ ("u1", "user", Some (Some "cus_1", None, None));
         ("u2", "user", Some (Some "cus_2", Some "sub_2",
                              Some (ValidDate 500))) ].
Proof.
  split; [discriminate|].
  apply (operations_keep_identities (utils_logger 1000) strictQuery
           (env_up e_new) vars_0 (OpWebhook signed) (world_of [alice; bob])).
  repeat constructor; simpl; intuition discriminate.
Defined.

(** X27. The same holds of every sequence of operations, whatever the
    collaborators do at each step: after any trace of webhook deliveries and
    user operations every document has the subscription identifier and the
    customer identifier it had at the start.  A record that has no
    subscription identifier never gets one. *)
Theorem no_trace_changes_identities (logger : Logger) (mongoose : Mongoose)
  (envVars : EnvVars) (steps : list (Env * Operation)) (w : World) :
  NoDup (map userId (users w)) ->
  map frameOf (users (performAll logger mongoose envVars steps w))
  = map frameOf (users w).
Proof.
  unfold performAll. revert w.
  induction steps as [|[env op] steps IH]; intros w Hnd; simpl;
    [reflexivity|].
  pose proof (frameOf_perform logger mongoose env envVars op w Hnd) as Hstep.
  rewrite IH; [exact Hstep|].
  rewrite userId_frameOf, Hstep, <- userId_frameOf. exact Hnd.
Qed.

Lemma no_trace_changes_identities_witness :
  users (performAll (utils_logger 1000) strictQuery vars_0
           [ (env_up e_new, OpWebhook signed);
             (env_up e_new, OpCancelSubscription "u2" true);
             (env_up e_old, OpWebhook signed) ]
           (world_of [alice; bob]))
  <> [alice; bob]
  /\ map frameOf
       (users (performAll (utils_logger 1000) strictQuery vars_0
                 [ (env_up e_new, OpWebhook signed);
                   (env_up e_new, OpCancelSubscription "u2" true);
                   (env_up e_old, OpWebhook signed) ]
                 (world_of [alice; bob])))
     = [ ("u1", "user", Some (Some "cus_1", None, None));
         ("u2", "user", Some (Some "cus_2", Some "sub_2",
                              Some (ValidDate 500))) ].
Proof.
  split; [discriminate|].
  apply (no_trace_changes_identities (utils_logger 1000) strictQuery vars_0
           [ (env_up e_new, OpWebhook signed);
             (env_up e_new, OpCancelSubscription "u2" true);
             (env_up e_old, OpWebhook signed) ]
           (world_of [alice; bob])).
  repeat constructor; simpl; intuition discriminate.
Defined.

(** ** Deliveries that write *)

Section Deliveries.

Context (logger : Logger) (mongoose : Mongoose) (env : Env).

Lemma touchesRoles_false (st : string) :
  touchesRoles st = false ->
  (st =? "active") = false
  /\ includes st ["canceled"; "unpaid"; "past_due"] = false.
Proof. unfold touchesRoles. intros H. apply orb_false_iff in H. exact H. Qed.

(** The dispatch of an event that gets as far as [save], with a write that
    the store accepts: no logger call lies on that path. *)
Lemma dispatch_applied (e : StripeEvent) (s : StripeSubscription)
  (item : SubscriptionItem) (rest : list SubscriptionItem) (user : User)
  (sb : Subscription) (w : World) :
  isSubscriptionChange e ->
  data_object e = ObjSubscription s ->
  find (selected mongoose (bySubscriptionId (sub_id s))) (users w)
  = Some user ->
  subscription user = Some sb ->
  sub_items_data s = item :: rest ->
  touchesRoles (sub_status s) = false ->
  save_rejects env (overwritten s item user sb) = None ->
  exists w',
    dispatchEvent logger mongoose env e w = (Returned tt, w')
    /\ users w' = replaceUser (overwritten s item user sb) (users w)
    /\ stripeCalls w' = stripeCalls w.
Proof.
  intros Htype Hobj Hfind Hsb Hitems Hroles Hsave.
  destruct (touchesRoles_false _ Hroles) as [Hactive Hother].
  unfold dispatchEvent.
  assert (Hnot : (event_type e =? "checkout.session.completed") = false)
    by (destruct Htype as [H|H]; rewrite H; reflexivity).
  rewrite Hnot, (isSubscriptionChange_dispatch e Htype), Hobj.
  unfold handleSubscriptionUpdated, tryCatch, bind, findOne.
  cbn beta iota. cbn [obj_id]. rewrite Hfind. cbn beta iota.
  rewrite Hsb, Hitems. unfold updateRoles.
  rewrite Hactive, Hother, applySubscriptionUpdate_overwritten.
  unfold ret, save. cbn beta iota. rewrite Hsave. unfold trackEvent.
  cbn beta iota zeta.
  destruct (analytics_rejects env _); eexists; repeat split; reflexivity.
Qed.

End Deliveries.

(** X21. Whatever the logger, a verified delivery of a subscription
    created/updated event that gets as far as [save] (its filter selects a
    user with a record, its status is none of those for which the handler
    calls a method of [user.roles], its object has a price item) and whose
    write the store accepts is answered by 200, and the selected document
    then holds the event's values: no logger call lies on that path. *)
Theorem applied_delivery_is_acknowledged (logger : Logger)
  (mongoose : Mongoose) (env : Env) (req : WebhookRequest)
  (signature : string) (e : StripeEvent) (s : StripeSubscription)
  (item : SubscriptionItem) (rest : list SubscriptionItem) (user : User)
  (sb : Subscription) (w : World) :
  truthyString (stripe_signature req) = Some signature ->
  webhooks_constructEvent env signature (body req) (webhookSecret env)
  = Returned e ->
  isSubscriptionChange e ->
  data_object e = ObjSubscription s ->
  find (selected mongoose (bySubscriptionId (sub_id s))) (users w)
  = Some user ->
  subscription user = Some sb ->
  sub_items_data s = item :: rest ->
  touchesRoles (sub_status s) = false ->
  save_rejects env (overwritten s item user sb) = None ->
  outcome (handleStripeWebhook logger mongoose env req) w
  = Returned {| statusCode := 200; json := Received true |}
  /\ find (selected mongoose (bySubscriptionId (sub_id s)))
       (users (deliver logger mongoose env req w))
     = Some {| userId := userId user;
               role := role user;
               subscription :=
                 Some {| planId := Some (price_id item);
                         status := Some (sub_status s);
                         stripeCustomerId := stripeCustomerId sb;
                         stripeSubscriptionId := stripeSubscriptionId sb;
                         currentPeriodStart := currentPeriodStart sb;
                         currentPeriodEnd :=
                           Some (newDate (sub_current_period_end s * 1000));
                         cancelAtPeriodEnd := sub_cancel_at_period_end s |} |}
  /\ stripeCalls (deliver logger mongoose env req w) = stripeCalls w.
Proof.
  intros Hsig Hok Htype Hobj Hfind Hsb Hitems Hroles Hsave.
  destruct (dispatch_applied logger mongoose env e s item rest user sb w
              Htype Hobj Hfind Hsb Hitems Hroles Hsave)
    as (w' & Hrun & Hu & Hc).
  unfold outcome, deliver, exec.
  rewrite (processed_delivery_is_acknowledged logger mongoose env req
             signature e w w' Hsig Hok Hrun).
  simpl. split; [reflexivity|]. split; [|exact Hc].
  rewrite Hu.
  apply (find_selected_replaceUser mongoose _ (overwritten s item user sb)
           user (users w) Hfind).
  reflexivity.
Qed.

Lemma applied_delivery_is_acknowledged_witness :
  outcome (handleStripeWebhook (utils_logger 1000) strictQuery (env_up e_new)
             signed) (world_of [alice])
  = Returned {| statusCode := 200; json := Received true |}
  /\ find (selected strictQuery (bySubscriptionId "sub_1"))
       (users (deliver (utils_logger 1000) strictQuery (env_up e_new) signed
                 (world_of [alice])))
     = Some {| userId := "u1"; role := "user";
               subscription :=
                 Some {| planId := Some "pro"; status := Some "trialing";
                         stripeCustomerId := Some "cus_1";
                         stripeSubscriptionId := None;
                         currentPeriodStart := None;
                         currentPeriodEnd := Some (ValidDate 3000);
                         cancelAtPeriodEnd := false |} |}
  /\ stripeCalls (deliver (utils_logger 1000) strictQuery (env_up e_new)
                    signed (world_of [alice]))
     = [].
Proof.
  apply (applied_delivery_is_acknowledged (utils_logger 1000) strictQuery
           (env_up e_new) signed "t=1,v1=5257a869" e_new
           (provider_sub "trialing" 3 false)
           {| item_id := "si_1"; price_id := "pro" |} [] alice
           {| planId := Some "basic"; status := Some "canceled";
              stripeCustomerId := Some "cus_1";
              stripeSubscriptionId := None;
              currentPeriodStart := None;
              currentPeriodEnd := Some (ValidDate 1000);
              cancelAtPeriodEnd := false |}
           (world_of [alice]));
    try reflexivity.
  right. reflexivity.
Defined.

(** X22. Whatever the logger, a verified delivery of a subscription
    created/updated event whose filter selects no user is a silent no-op:
    nothing is written or logged, and the answer is 200. *)
Theorem unknown_subscription_is_ignored (logger : Logger)
  (mongoose : Mongoose) (env : Env) (req : WebhookRequest)
  (signature : string) (e : StripeEvent) (w : World) :
  truthyString (stripe_signature req) = Some signature ->
  webhooks_constructEvent env signature (body req) (webhookSecret env)
  = Returned e ->
  isSubscriptionChange e ->
  find (selected mongoose (bySubscriptionId (obj_id (data_object e))))
    (users w) = None ->
  handleStripeWebhook logger mongoose env req w = (Returned acknowledged, w).
Proof.
  intros Hsig Hok Htype Hfind.
  apply (processed_delivery_is_acknowledged logger mongoose env req signature
           e w w Hsig Hok).
  unfold dispatchEvent.
  destruct Htype as [Ht|Ht]; rewrite Ht; simpl;
    unfold_program; simpl; rewrite Hfind; reflexivity.
Qed.

Lemma unknown_subscription_is_ignored_witness :
  handleStripeWebhook (utils_logger 1000) rawQuery (env_up e_new) signed
    (world_of [alice; bob])
  = (Returned acknowledged, world_of [alice; bob]).
Proof.
  apply (unknown_subscription_is_ignored (utils_logger 1000) rawQuery
           (env_up e_new) signed "t=1,v1=5257a869" e_new
           (world_of [alice; bob]));
    try reflexivity.
  right. reflexivity.
Defined.

(** X23. A webhook delivery changes a user document only on one path: the
    delivery is verified, its event is a subscription created/updated event
    whose filter selects a user with a record, whose status is none of
    those for which the handler calls a method of [user.roles] and whose
    object has a price item, and the store accepts the write; then the
    selected document is overwritten with the event's values. *)
Theorem webhook_writes_only_on_subscription_change (logger : Logger)
  (mongoose : Mongoose) (env : Env) (req : WebhookRequest) (w : World) :
  users (deliver logger mongoose env req w) <> users w ->
  exists signature e s item rest user sb,
    truthyString (stripe_signature req) = Some signature
    /\ webhooks_constructEvent env signature (body req) (webhookSecret env)
       = Returned e
    /\ isSubscriptionChange e
    /\ data_object e = ObjSubscription s
    /\ find (selected mongoose (bySubscriptionId (sub_id s))) (users w)
       = Some user
    /\ subscription user = Some sb
    /\ sub_items_data s = item :: rest
    /\ touchesRoles (sub_status s) = false
    /\ save_rejects env (overwritten s item user sb) = None
    /\ users (deliver logger mongoose env req w)
       = replaceUser (overwritten s item user sb) (users w).
Proof.
  rewrite users_deliver. unfold usersAfterDelivery.
  destruct (truthyString (stripe_signature req)) as [signature|] eqn:Hsig;
    [|intros H; contradiction H; reflexivity].
  destruct (webhooks_constructEvent env signature (body req)
              (webhookSecret env)) as [e|] eqn:Hok;
    [|intros H; contradiction H; reflexivity].
  rewrite <- (users_dispatchEvent logger). intros Hchanged.
  destruct (subscription_event_write_only logger mongoose env e w Hchanged)
    as (s & item & rest & user & sb & H).
  exists signature, e, s, item, rest, user, sb. tauto.
Qed.

Lemma webhook_writes_only_on_subscription_change_witness :
  exists signature e s item rest user sb,
    truthyString (stripe_signature signed) = Some signature
    /\ webhooks_constructEvent (env_up e_new) signature (body signed)
         (webhookSecret (env_up e_new))
       = Returned e
    /\ isSubscriptionChange e
    /\ data_object e = ObjSubscription s
    /\ find (selected strictQuery (bySubscriptionId (sub_id s)))
         (users (world_of [alice]))
       = Some user
    /\ subscription user = Some sb
    /\ sub_items_data s = item :: rest
    /\ touchesRoles (sub_status s) = false
    /\ save_rejects (env_up e_new) (overwritten s item user sb) = None
    /\ users (deliver (utils_logger 1000) strictQuery (env_up e_new) signed
                (world_of [alice]))
       = replaceUser (overwritten s item user sb) (users (world_of [alice])).
Proof.
  apply (webhook_writes_only_on_subscription_change (utils_logger 1000)
           strictQuery (env_up e_new) signed (world_of [alice])).
  discriminate.
Defined.

(** X24. A subscription created/updated event that carries the status,
    period end, cancellation flag and plan already on the record that its
    filter selects leaves that document as it is, whatever the logger and
    the collaborators do. *)
Theorem echo_event_keeps_record (logger : Logger) (mongoose : Mongoose)
  (env : Env) (e : StripeEvent) (s : StripeSubscription)
  (item : SubscriptionItem) (rest : list SubscriptionItem) (user : User)
  (sb : Subscription) (w : World) :
  isSubscriptionChange e ->
  data_object e = ObjSubscription s ->
  find (selected mongoose (bySubscriptionId (sub_id s))) (users w)
  = Some user ->
  subscription user = Some sb ->
  sub_items_data s = item :: rest ->
  status sb = Some (sub_status s) ->
  currentPeriodEnd sb = Some (newDate (sub_current_period_end s * 1000)) ->
  cancelAtPeriodEnd sb = sub_cancel_at_period_end s ->
  planId sb = Some (price_id item) ->
  find (selected mongoose (bySubscriptionId (sub_id s)))
    (users (applyEvent logger mongoose env e w))
  = Some user.
Proof.
  intros Htype Hobj Hfind Hsb Hitems Hst Hcpe Hcape Hplan.
  rewrite users_dispatchEvent, usersAfterEvent_change by exact Htype.
  unfold updatedDocument. rewrite Hobj. simpl obj_id.
  rewrite Hfind, Hsb, Hitems.
  destruct (touchesRoles (sub_status s)); [exact Hfind|].
  assert (Hsame : applySubscriptionUpdate s item user sb = user).
  { rewrite applySubscriptionUpdate_overwritten. unfold overwritten.
    destruct user as [i r osb], sb as [p st c si ps pe ca]. simpl in *.
    subst. reflexivity. }
  rewrite Hsame. unfold written.
  destruct (save_rejects env user); [exact Hfind|].
  apply (find_selected_replaceUser mongoose _ user user (users w) Hfind).
  reflexivity.
Qed.

Lemma echo_event_keeps_record_witness :
  find (selected strictQuery (bySubscriptionId "sub_1"))
    (users (applyEvent (utils_logger 1000) strictQuery (env_up e_new) e_new
              (applyEvent (utils_logger 1000) strictQuery (env_up e_new) e_new
                 (world_of [alice]))))
  = Some {| userId := "u1"; role := "user";
            subscription :=
              Some {| planId := Some "pro"; status := Some "trialing";
                      stripeCustomerId := Some "cus_1";
                      stripeSubscriptionId := None;
                      currentPeriodStart := None;
                      currentPeriodEnd := Some (ValidDate 3000);
                      cancelAtPeriodEnd := false |} |}.
Proof.
  apply (echo_event_keeps_record (utils_logger 1000) strictQuery
           (env_up e_new) e_new (provider_sub "trialing" 3 false)
           {| item_id := "si_1"; price_id := "pro" |} []
           {| userId := "u1"; role := "user";
              subscription :=
                Some {| planId := Some "pro"; status := Some "trialing";
                        stripeCustomerId := Some "cus_1";
                        stripeSubscriptionId := None;
                        currentPeriodStart := None;
                        currentPeriodEnd := Some (ValidDate 3000);
                        cancelAtPeriodEnd := false |} |}
           {| planId := Some "pro"; status := Some "trialing";
              stripeCustomerId := Some "cus_1";
              stripeSubscriptionId := None;
              currentPeriodStart := None;
              currentPeriodEnd := Some (ValidDate 3000);
              cancelAtPeriodEnd := false |}
           (applyEvent (utils_logger 1000) strictQuery (env_up e_new) e_new
              (world_of [alice])));
    try reflexivity.
  right. reflexivity.
Defined.

(** X28. The period end that such an event stores is the provider's time in
    milliseconds: for a [current_period_end] of at most 8.64e12 seconds on
    either side of the epoch, the record written holds the valid date
    [current_period_end * 1000]. *)
Theorem period_end_is_stored_in_milliseconds (logger : Logger)
  (mongoose : Mongoose) (env : Env) (e : StripeEvent) (s : StripeSubscription)
  (item : SubscriptionItem) (rest : list SubscriptionItem) (user : User)
  (sb : Subscription) (w : World) :
  isSubscriptionChange e ->
  data_object e = ObjSubscription s ->
  find (selected mongoose (bySubscriptionId (sub_id s))) (users w)
  = Some user ->
  subscription user = Some sb ->
  sub_items_data s = item :: rest ->
  touchesRoles (sub_status s) = false ->
  save_rejects env (overwritten s item user sb) = None ->
  (Z.abs (sub_current_period_end s) <= 8640000000000)%Z ->
  exists user' sb',
    find (selected mongoose (bySubscriptionId (sub_id s)))
      (users (applyEvent logger mongoose env e w)) = Some user'
    /\ subscription user' = Some sb'
    /\ currentPeriodEnd sb'
       = Some (ValidDate (sub_current_period_end s * 1000)).
Proof.
  intros Htype Hobj Hfind Hsb Hitems Hroles Hsave Hrange.
  rewrite (subscription_event_writes logger mongoose env e s item rest user sb
             w Htype Hobj Hfind Hsb Hitems Hroles Hsave).
  rewrite (find_selected_replaceUser mongoose _ (overwritten s item user sb)
             user (users w) Hfind eq_refl).
  eexists. eexists. split; [reflexivity|]. split; [reflexivity|].
  simpl. unfold newDate, maxTime.
  destruct (Z.abs (sub_current_period_end s * 1000) <=? 8640000000000000)%Z
    eqn:E; [reflexivity|].
  apply Z.leb_gt in E. rewrite Z.abs_mul in E. simpl Z.abs in E. lia.
Qed.

Lemma period_end_is_stored_in_milliseconds_witness :
  exists user' sb',
    find (selected strictQuery (bySubscriptionId "sub_1"))
      (users (applyEvent (utils_logger 1000) strictQuery (env_up e_new) e_new
                (world_of [alice]))) = Some user'
    /\ subscription user' = Some sb'
    /\ currentPeriodEnd sb' = Some (ValidDate (3 * 1000)).
Proof.
  apply (period_end_is_stored_in_milliseconds (utils_logger 1000) strictQuery
           (env_up e_new) e_new (provider_sub "trialing" 3 false)
           {| item_id := "si_1"; price_id := "pro" |} [] alice
           {| planId := Some "basic"; status := Some "canceled";
              stripeCustomerId := Some "cus_1";
              stripeSubscriptionId := None;
              currentPeriodStart := None;
              currentPeriodEnd := Some (ValidDate 1000);
              cancelAtPeriodEnd := false |}
           (world_of [alice]));
    try reflexivity.
  - right. reflexivity.
  - simpl. lia.
Defined.
